(** * PubMed MCP server: a shallow embedding of [src/index.js] and
    [src/pubmed-search.js]

    The server exposes one tool, [pubmed_articles], whose handler (the
    Dispatcher) routes on the [method] field of the argument object and
    calls one of the four functions exported by the Gateway
    ([searchKeywords], [searchAdvanced], [getArticleMetadata],
    [downloadFullTextPdf]).

    Modelling choices.
    - JavaScript values are the inductive type [JsVal].  A number is a safe
      integer, of magnitude below 2^53: these are the integers that reach
      the handler exactly and that [toString] prints in plain decimal.
      Other numbers cannot be written.
    - A string is a sequence of code units in the range 0..255, one [ascii]
      per code unit, so [s[0]], iteration and [trim] work per character and
      [encodeURIComponent] never meets a lone surrogate.  Other strings
      cannot be written.
    - An object is an association list read by its first matching key.
      [VObj] is an object with [Object.prototype], as [JSON.parse] and an
      object literal build it; [VBare] is an object without prototype, as
      [xml2js] builds the objects of a parsed document from its version
      0.5.0 on (earlier versions build plain objects).  The two differ in
      the conversion to a string only.  The property names the program
      reads are none of the members of [Object.prototype],
      [Array.prototype] or [String.prototype], so reading one of them from
      an array or a primitive gives [undefined].
    - A conversion to a string can throw: an object is converted through
      its [toString] and [valueOf], none of which is callable when it is an
      own key of parsed data.
    - [await] is sequencing.  The only effect that is recorded is the
      network: every [axios.get] appends its URL to a request log, and the
      upstream's answer may depend on the whole log so far.  [axios.get]
      followed by [parseXML] is one step [http_get_xml], which either
      yields the parsed document or throws.
    - [console.log] and [console.error] print nothing in the model, but
      their arguments are evaluated, template literals included.
    - [JSON.stringify] and the wording of the messages of the errors that
      the engine and the libraries raise are parameters of the
      development. *)

From Stdlib Require Import String Ascii List ZArith Lia Bool.
From Stdlib Require Import DecimalString.
From Stdlib Require DecimalZ.
Import ListNotations.
Local Open Scope string_scope.
Local Open Scope list_scope.
Set Warnings "-register-all".

(** * Values, exceptions *)

Definition is_safe (z : Z) : bool := (Z.abs z <? 9007199254740992)%Z.

(** An integer of magnitude below 2^53. *)
Record SafeInt : Type := mkSafe {
  int_value : Z;
  int_safe : is_safe int_value = true
}.

(** The safe integer [z]; 0 stands in when [z] is out of range. *)
Definition safe (z : Z) : SafeInt :=
  (if is_safe z as b return is_safe z = b -> SafeInt
   then fun H => mkSafe z H
   else fun _ => mkSafe 0 eq_refl) eq_refl.

Inductive JsVal : Type :=
| VUndef
| VNull
| VBool (b : bool)
| VNumber (n : SafeInt)
| VStr (s : string)
| VArr (items : list JsVal)
| VObj (fields : list (string * JsVal))
| VBare (fields : list (string * JsVal)).

(** A number literal. *)
Definition VNum (z : Z) : JsVal := VNumber (safe z).

(** The errors that the engine and the libraries raise themselves. *)
Inductive Fault : Type :=
| NullishAccess
| NotIterable
| NotCallable
| NotPrimitive
| RequestFailed.

(** Every value thrown is an instance of [Error]: one made by the program
    with [new Error(message)], or one of the engine or of a library
    ([NullishAccess]: a property of, or the destructuring of, [null] or
    [undefined]; [NotIterable]: a for-of loop over a value that cannot be
    iterated; [NotCallable]: a call of a value that is no function;
    [NotPrimitive]: the conversion of an object to a string;
    [RequestFailed]: [axios.get] or [parseXML]). *)
Inductive Exn : Type :=
| Error (message : string)
| Foreign (fault : Fault).

Inductive Result (A : Type) : Type :=
| Ok (a : A)
| Throw (e : Exn).
Arguments Ok {A} a.
Arguments Throw {A} e.

Definition bindR {A B} (c : Result A) (k : A -> Result B) : Result B :=
  match c with
  | Ok a => k a
  | Throw e => Throw e
  end.

Notation "x <~ c ;; k" := (bindR c (fun x => k))
  (at level 61, c at next level, right associativity).

(** * Primitive operations of the language *)

(** [Boolean(v)], the test of [if (v)], [!v], [a || b] and [a && b]. *)
Definition truthy (v : JsVal) : bool :=
  match v with
  | VUndef | VNull => false
  | VBool b => b
  | VNumber n => negb (int_value n =? 0)%Z
  | VStr "" => false
  | VStr _ => true
  | VArr _ | VObj _ | VBare _ => true
  end.

(** [a || b] *)
Definition or_else (a b : JsVal) : JsVal := if truthy a then a else b.

Definition nullish (v : JsVal) : bool :=
  match v with
  | VUndef | VNull => true
  | _ => false
  end.

(** [typeof v === 'string'] *)
Definition is_string (v : JsVal) : bool :=
  match v with
  | VStr _ => true
  | _ => false
  end.

(** [v === 'lit'] *)
Definition strict_eq_str (v : JsVal) (lit : string) : bool :=
  match v with
  | VStr s => String.eqb s lit
  | _ => false
  end.

Fixpoint assoc (k : string) (fs : list (string * JsVal)) : JsVal :=
  match fs with
  | [] => VUndef
  | (k', v) :: rest => if String.eqb k k' then v else assoc k rest
  end.

(** [v.k] on a value that is neither [null] nor [undefined]. *)
Definition get_field (v : JsVal) (k : string) : JsVal :=
  match v with
  | VObj fs | VBare fs => assoc k fs
  | _ => VUndef
  end.

(** [v.k] *)
Definition prop (v : JsVal) (k : string) : Result JsVal :=
  if nullish v then Throw (Foreign NullishAccess) else Ok (get_field v k).

(** [v?.k] *)
Definition opt_prop (v : JsVal) (k : string) : JsVal :=
  if nullish v then VUndef else get_field v k.

(** [v[0]] on a value that is neither [null] nor [undefined]. *)
Definition get_index0 (v : JsVal) : JsVal :=
  match v with
  | VArr (x :: _) => x
  | VStr (String c _) => VStr (String c "")
  | VObj fs | VBare fs => assoc "0" fs
  | _ => VUndef
  end.

(** [v[0]] *)
Definition index0 (v : JsVal) : Result JsVal :=
  if nullish v then Throw (Foreign NullishAccess) else Ok (get_index0 v).

(** [v?.[0]] *)
Definition opt_index0 (v : JsVal) : JsVal :=
  if nullish v then VUndef else get_index0 v.

Fixpoint chars (s : string) : list JsVal :=
  match s with
  | "" => []
  | String c r => VStr (String c "") :: chars r
  end.

(** The values a [for (const x of v)] loop visits. *)
Definition iterate (v : JsVal) : Result (list JsVal) :=
  match v with
  | VArr l => Ok l
  | VStr s => Ok (chars s)
  | _ => Throw (Foreign NotIterable)
  end.

(** [n.toString()] *)
Definition Number_toString (n : SafeInt) : string :=
  NilZero.string_of_int (Z.to_int (int_value n)).

Definition has_own (k : string) (fs : list (string * JsVal)) : bool :=
  existsb (fun kv => String.eqb (fst kv) k) fs.

(** Whether the conversion to a string succeeds.  A plain object is
    converted by the [toString] of its prototype unless it has a
    [toString] of its own, which is data and cannot be called, after which
    [valueOf] gives no primitive either; an object without prototype has
    no [toString] that can be called.  An array converts its elements,
    [null] and [undefined] apart. *)
Fixpoint convertible (v : JsVal) : bool :=
  match v with
  | VObj fs => negb (has_own "toString" fs)
  | VBare _ => false
  | VArr l =>
      forallb (fun x => match x with
                        | VUndef | VNull => true
                        | _ => convertible x
                        end) l
  | _ => true
  end.

(** The string that the conversion gives when it succeeds. *)
Fixpoint render (v : JsVal) : string :=
  match v with
  | VUndef => "undefined"
  | VNull => "null"
  | VBool true => "true"
  | VBool false => "false"
  | VNumber n => Number_toString n
  | VStr s => s
  | VArr l =>
      String.concat ","
        (map (fun x => match x with
                       | VUndef | VNull => ""
                       | _ => render x
                       end) l)
  | VObj _ | VBare _ => "[object Object]"
  end.

(** [String(v)], also the conversion inside a template literal. *)
Definition ToString (v : JsVal) : Result string :=
  if convertible v then Ok (render v) else Throw (Foreign NotPrimitive).

(** [l.join(sep)] *)
Definition Array_join (sep : string) (l : list JsVal) : Result string :=
  if forallb (fun x => nullish x || convertible x) l
  then Ok (String.concat sep
             (map (fun x => if nullish x then "" else render x) l))
  else Throw (Foreign NotPrimitive).

(** White space and line terminators among the code units below 256. *)
Definition is_js_space (c : ascii) : bool :=
  let n := nat_of_ascii c in
  ((9 <=? n) && (n <=? 13) || (n =? 32) || (n =? 160))%nat.

Fixpoint trimStart (s : string) : string :=
  match s with
  | "" => ""
  | String c r => if is_js_space c then trimStart r else s
  end.

Fixpoint trimEnd (s : string) : string :=
  match s with
  | "" => ""
  | String c r =>
      match trimEnd r with
      | "" => if is_js_space c then "" else String c ""
      | r' => String c r'
      end
  end.

(** [s.trim()] *)
Definition trim (s : string) : string := trimEnd (trimStart s).

Definition hex_digit (n : nat) : ascii :=
  ascii_of_nat (if (n <? 10)%nat then 48 + n else 55 + n).

Definition percent_byte (n : nat) : string :=
  String "%" (String (hex_digit (n / 16)) (String (hex_digit (n mod 16)) "")).

(** The characters [encodeURIComponent] leaves alone:
    letters, digits and [- _ . ! ~ * ' ( )]. *)
Definition uri_unreserved (c : ascii) : bool :=
  let n := nat_of_ascii c in
  ((65 <=? n) && (n <=? 90) || (97 <=? n) && (n <=? 122)
   || (48 <=? n) && (n <=? 57)
   || (n =? 45) || (n =? 95) || (n =? 46) || (n =? 33) || (n =? 126)
   || (n =? 42) || (n =? 39) || (n =? 40) || (n =? 41))%nat.

(** [encodeURIComponent] on a string of code units below 256: every
    character that is not left alone is written in UTF-8 and each byte is
    escaped. *)
Fixpoint encodeURIComponent (s : string) : string :=
  match s with
  | "" => ""
  | String c r =>
      let n := nat_of_ascii c in
      (if uri_unreserved c then String c ""
       else if (n <? 128)%nat then percent_byte n
       else percent_byte (192 + n / 64) ++ percent_byte (128 + n mod 64))
      ++ encodeURIComponent r
  end.

(** * The network and the sequencing of effects *)

(** The requests issued so far, oldest first. *)
Definition RequestLog : Type := list string.

(** A computation that may issue requests and may throw. *)
Definition M (A : Type) : Type := RequestLog -> Result A * RequestLog.

Definition ret {A} (a : A) : M A := fun log => (Ok a, log).

Definition throw {A} (e : Exn) : M A := fun log => (Throw e, log).

Definition bind {A B} (c : M A) (k : A -> M B) : M B :=
  fun log =>
    match c log with
    | (Ok a, log') => k a log'
    | (Throw e, log') => (Throw e, log')
    end.

Notation "x <- c ;; k" := (bind c (fun x => k))
  (at level 61, c at next level, right associativity).

(** [try { c } catch (error) { handler(error) }] *)
Definition try_catch {A} (c : M A) (handler : Exn -> M A) : M A :=
  fun log =>
    match c log with
    | (Ok a, log') => (Ok a, log')
    | (Throw e, log') => handler e log'
    end.

Definition lift {A} (r : Result A) : M A := fun log => (r, log).

(** [console.log(text)] and [console.error(text)], once [text] is
    evaluated. *)
Definition console_print (text : string) : M unit := ret tt.

(** * The article record *)

Record ArticleRecord : Type := mkArticle {
  pmid : JsVal;
  title : JsVal;
  authors : list string;
  journal : JsVal;
  publication_date : string;
  abstract : string;
  doi : JsVal;
  pmcid : JsVal;
  keywords : list JsVal;
  mesh_terms : list JsVal;
  url : string
}.

(** The object literal that [getPubMedMetadata] returns, as a value. *)
Definition record_to_js (r : ArticleRecord) : JsVal :=
  VObj [ ("pmid", pmid r);
         ("title", title r);
         ("authors", VArr (map VStr (authors r)));
         ("journal", journal r);
         ("publication_date", VStr (publication_date r));
         ("abstract", VStr (abstract r));
         ("doi", doi r);
         ("pmcid", pmcid r);
         ("keywords", VArr (keywords r));
         ("mesh_terms", VArr (mesh_terms r));
         ("url", VStr (url r)) ].

(** * pubmed-search.js: extraction of one record from a parsed payload *)

(** The body of the loop over [authorList]: the entry pushed for one
    author, if any. *)
Definition author_name (author : JsVal) : Result (option string) :=
  ln <~ prop author "LastName" ;;
  let lastName := or_else (opt_index0 ln) (VStr "") in
  fn <~ prop author "ForeName" ;;
  let foreName := or_else (opt_index0 fn) (VStr "") in
  if truthy lastName
  then
    l <~ ToString lastName ;;
    f <~ ToString foreName ;;
    Ok (Some (trim (l ++ ", " ++ f)))
  else Ok None.

Fixpoint push_authors (l : list JsVal) (authors : list string)
  : Result (list string) :=
  match l with
  | [] => Ok authors
  | author :: rest =>
      entry <~ author_name author ;;
      match entry with
      | Some name => push_authors rest (authors ++ [name])
      | None => push_authors rest authors
      end
  end.

Definition extract_authors (medlineCitation : JsVal) : Result (list string) :=
  art <~ prop medlineCitation "Article" ;;
  let authorList :=
    opt_prop (opt_index0 (opt_prop (opt_index0 art) "AuthorList")) "Author" in
  if truthy authorList
  then l <~ iterate authorList ;; push_authors l []
  else Ok [].

(** [[year, month, day].filter(Boolean).join('-')] *)
Definition join_date (pubDate : JsVal) : Result string :=
  y <~ prop pubDate "Year" ;;
  let year := or_else (opt_index0 y) (VStr "") in
  m <~ prop pubDate "Month" ;;
  let month := or_else (opt_index0 m) (VStr "") in
  d <~ prop pubDate "Day" ;;
  let day := or_else (opt_index0 d) (VStr "") in
  Array_join "-" (filter truthy [year; month; day]).

Definition extract_publication_date (medlineCitation : JsVal) : Result string :=
  art <~ prop medlineCitation "Article" ;;
  let pubDate :=
    opt_index0
      (opt_prop
         (opt_index0
            (opt_prop (opt_index0 (opt_prop (opt_index0 art) "Journal"))
               "JournalIssue"))
         "PubDate") in
  if truthy pubDate then join_date pubDate else Ok "Unknown date".

(** The callback of [abstractTexts.map]. *)
Definition abstract_segment (text : JsVal) : Result JsVal :=
  if is_string text then Ok text
  else
    t <~ prop text "_" ;;
    if truthy t then Ok t else Ok (VStr "").

Fixpoint map_segments (l : list JsVal) : Result (list JsVal) :=
  match l with
  | [] => Ok []
  | text :: rest =>
      seg <~ abstract_segment text ;;
      segs <~ map_segments rest ;;
      Ok (seg :: segs)
  end.

Definition extract_abstract (medlineCitation : JsVal) : Result string :=
  art <~ prop medlineCitation "Article" ;;
  let abstractTexts :=
    opt_prop (opt_index0 (opt_prop (opt_index0 art) "Abstract")) "AbstractText" in
  if truthy abstractTexts
  then
    match abstractTexts with
    | VArr l => segs <~ map_segments l ;; Array_join " " segs
    | _ => Throw (Foreign NotCallable)
    end
  else Ok "".

(** The loop that takes the text of the first identifier whose [IdType]
    attribute is [idType], or leaves the initial empty string. *)
Fixpoint first_id_of_type (idType : string) (l : list JsVal) : Result JsVal :=
  match l with
  | [] => Ok (VStr "")
  | id :: rest =>
      attrs <~ prop id "$" ;;
      if truthy attrs && strict_eq_str (get_field attrs "IdType") idType
      then prop id "_"
      else first_id_of_type idType rest
  end.

Definition extract_id (idType : string) (articleIds : JsVal) : Result JsVal :=
  if truthy articleIds
  then l <~ iterate articleIds ;; first_id_of_type idType l
  else Ok (VStr "").

Fixpoint push_mesh (l : list JsVal) (meshTerms : list JsVal)
  : Result (list JsVal) :=
  match l with
  | [] => Ok meshTerms
  | heading :: rest =>
      dn <~ prop heading "DescriptorName" ;;
      let descriptorName := opt_prop (opt_index0 dn) "_" in
      if truthy descriptorName
      then push_mesh rest (meshTerms ++ [descriptorName])
      else push_mesh rest meshTerms
  end.

Definition extract_mesh (medlineCitation : JsVal) : Result (list JsVal) :=
  mhl <~ prop medlineCitation "MeshHeadingList" ;;
  let meshHeadingList := opt_prop (opt_index0 mhl) "MeshHeading" in
  if truthy meshHeadingList
  then l <~ iterate meshHeadingList ;; push_mesh l []
  else Ok [].

Fixpoint push_keywords (l : list JsVal) (keywords : list JsVal)
  : Result (list JsVal) :=
  match l with
  | [] => Ok keywords
  | keyword :: rest =>
      if is_string keyword
      then push_keywords rest (keywords ++ [keyword])
      else
        t <~ prop keyword "_" ;;
        if truthy t
        then push_keywords rest (keywords ++ [t])
        else push_keywords rest keywords
  end.

Definition extract_keywords (medlineCitation : JsVal) : Result (list JsVal) :=
  kl <~ prop medlineCitation "KeywordList" ;;
  let keywordList := opt_prop (opt_index0 kl) "Keyword" in
  if truthy keywordList
  then l <~ iterate keywordList ;; push_keywords l []
  else Ok [].

(** [`https://pubmed.ncbi.nlm.nih.gov/${pmid}/`], once [pmid] is
    converted. *)
Definition article_url (id : string) : string :=
  "https://pubmed.ncbi.nlm.nih.gov/" ++ id ++ "/".

(** [getPubMedMetadata] from the line after [parseXML] to its [return]:
    [None] is [null]. *)
Definition extract_record (pmid result : JsVal) : Result (option ArticleRecord) :=
  let article :=
    opt_index0 (opt_prop (opt_prop result "PubmedArticleSet") "PubmedArticle") in
  if negb (truthy article) then Ok None
  else
    mc <~ prop article "MedlineCitation" ;;
    let medlineCitation := opt_index0 mc in
    pd <~ prop article "PubmedData" ;;
    let pubmedData := opt_index0 pd in
    if negb (truthy medlineCitation) then Ok None
    else
      art <~ prop medlineCitation "Article" ;;
      let title :=
        or_else (opt_index0 (opt_prop (opt_index0 art) "ArticleTitle"))
          (VStr "No title available") in
      art' <~ prop medlineCitation "Article" ;;
      let journal :=
        or_else
          (opt_index0
             (opt_prop (opt_index0 (opt_prop (opt_index0 art') "Journal"))
                "Title"))
          (VStr "Unknown journal") in
      authors <~ extract_authors medlineCitation ;;
      publicationDate <~ extract_publication_date medlineCitation ;;
      abstract <~ extract_abstract medlineCitation ;;
      let articleIds :=
        opt_prop (opt_index0 (opt_prop pubmedData "ArticleIdList")) "ArticleId" in
      doi <~ extract_id "doi" articleIds ;;
      pmcid <~ extract_id "pmc" articleIds ;;
      meshTerms <~ extract_mesh medlineCitation ;;
      keywords <~ extract_keywords medlineCitation ;;
      id <~ ToString pmid ;;
      Ok (Some {| pmid := pmid;
                  title := title;
                  authors := authors;
                  journal := journal;
                  publication_date := publicationDate;
                  abstract := abstract;
                  doi := doi;
                  pmcid := pmcid;
                  keywords := keywords;
                  mesh_terms := meshTerms;
                  url := article_url id |}).

(** * pubmed-search.js: the Gateway *)

Section Gateway.

(** The upstream service together with [parseXML]: given the requests
    already issued and the URL requested now, the parsed document, or
    [None] when the request or the parse fails. *)
Variable upstream : RequestLog -> string -> option JsVal.

(** [parseXML((await axios.get(url, ...)).data)] *)
Definition http_get_xml (url : string) : M JsVal :=
  fun log =>
    match upstream log url with
    | Some doc => (Ok doc, log ++ [url])
    | None => (Throw (Foreign RequestFailed), log ++ [url])
    end.

Definition generatePubMedSearchUrl (term : JsVal) (numResults : JsVal)
  : Result string :=
  let numResults := match numResults with VUndef => VNum 10 | v => v end in
  let baseUrl := "https://eutils.ncbi.nlm.nih.gov/entrez/eutils/esearch.fcgi" in
  t <~ ToString term ;;
  let encodedTerm := encodeURIComponent t in
  n <~ ToString numResults ;;
  Ok (baseUrl ++ "?db=pubmed&term=" ++ encodedTerm
              ++ "&retmax=" ++ n ++ "&retmode=xml")%string.

(** The loop of [searchPubMed] over the [Id] elements. *)
Fixpoint push_ids (ids : list JsVal) (pmids : list JsVal) : list JsVal :=
  match ids with
  | [] => pmids
  | id :: rest =>
      if is_string id then push_ids rest (pmids ++ [id])
      else
        let t := opt_prop id "_" in
        if truthy t then push_ids rest (pmids ++ [t])
        else push_ids rest pmids
  end.

Definition parse_id_list (result : JsVal) : Result (list JsVal) :=
  if truthy
       (opt_prop
          (opt_index0 (opt_prop (opt_prop result "eSearchResult") "IdList"))
          "Id")
  then
    r1 <~ prop result "eSearchResult" ;;
    r2 <~ prop r1 "IdList" ;;
    r3 <~ index0 r2 ;;
    ids <~ prop r3 "Id" ;;
    l <~ iterate ids ;;
    Ok (push_ids l [])
  else Ok [].

Definition searchPubMed (searchUrl : string) : M (list JsVal) :=
  try_catch
    (result <- http_get_xml searchUrl ;;
     lift (parse_id_list result))
    (fun _ => ret []).

(** The URL of one fetch, once the identifier is converted. *)
Definition efetch_url (id : string) : string :=
  "https://eutils.ncbi.nlm.nih.gov/entrez/eutils/efetch.fcgi?db=pubmed&id="
    ++ id ++ "&retmode=xml".

Definition getPubMedMetadata (pmid : JsVal) : M (option ArticleRecord) :=
  try_catch
    (id <- lift (ToString pmid) ;;
     let url := efetch_url id in
     result <- http_get_xml url ;;
     lift (extract_record pmid result))
    (fun error =>
       id <- lift (ToString pmid) ;;
       _ <- console_print ("Error fetching metadata for PMID " ++ id ++ ":") ;;
       ret None).

(** The loop shared by the two search functions:
    [for (const pmid of pmids) { ... articles.push(metadata) }]. *)
Fixpoint fetch_each (pmids : list JsVal) (articles : list ArticleRecord)
  : M (list ArticleRecord) :=
  match pmids with
  | [] => ret articles
  | pmid :: rest =>
      metadata <- getPubMedMetadata pmid ;;
      match metadata with
      | Some r => fetch_each rest (articles ++ [r])
      | None => fetch_each rest articles
      end
  end.

Definition searchKeywords (keywords : JsVal) (numResults : JsVal)
  : M (list ArticleRecord) :=
  let numResults := match numResults with VUndef => VNum 10 | v => v end in
  k <- lift (ToString keywords) ;;
  _ <- console_print ("Generated search URL for keywords: " ++ k) ;;
  searchUrl <- lift (generatePubMedSearchUrl keywords numResults) ;;
  pmids <- searchPubMed searchUrl ;;
  fetch_each pmids [].

(** [if (v) terms.push(`${v}tag`)] *)
Definition tagged_term (v : JsVal) (tag : string) : Result (list JsVal) :=
  if truthy v then s <~ ToString v ;; Ok [VStr (s ++ tag)] else Ok [].

(** The array [terms] of [searchAdvanced] just before [join]. *)
Definition searchAdvanced_terms (params : JsVal) : Result (list JsVal) :=
  let term := get_field params "term" in
  let start_date := get_field params "start_date" in
  let end_date := get_field params "end_date" in
  let t1 := if truthy term then [term] else [] in
  t2 <~ tagged_term (get_field params "title") "[Title]" ;;
  t3 <~ tagged_term (get_field params "author") "[Author]" ;;
  t4 <~ tagged_term (get_field params "journal") "[Journal]" ;;
  t5 <~ (if truthy start_date && truthy end_date
         then
           s <~ ToString start_date ;;
           e <~ ToString end_date ;;
           Ok [VStr (s ++ ":" ++ e ++ "[Date - Publication]")]
         else if truthy start_date
         then
           s <~ ToString start_date ;;
           Ok [VStr (s ++ ":3000[Date - Publication]")]
         else if truthy end_date
         then
           e <~ ToString end_date ;;
           Ok [VStr ("1800:" ++ e ++ "[Date - Publication]")]
         else Ok []) ;;
  Ok (t1 ++ t2 ++ t3 ++ t4 ++ t5).

(** [searchTerm], the joined terms. *)
Definition searchAdvanced_query (params : JsVal) : Result string :=
  terms <~ searchAdvanced_terms params ;;
  Array_join " AND " terms.

Definition searchAdvanced (params : JsVal) : M (list ArticleRecord) :=
  if nullish params
  then throw (Foreign NullishAccess)
  else
    searchTerm <- lift (searchAdvanced_query params) ;;
    if String.eqb searchTerm ""
    then throw (Error "At least one search parameter is required")
    else
      _ <- console_print ("Generated advanced search URL: " ++ searchTerm) ;;
      searchUrl <-
        lift (generatePubMedSearchUrl (VStr searchTerm)
                (or_else (get_field params "num_results") (VNum 10))) ;;
      pmids <- searchPubMed searchUrl ;;
      fetch_each pmids [].

(** [typeof pmid === 'number' ? pmid.toString() : pmid] *)
Definition pmid_string (pmid : JsVal) : JsVal :=
  match pmid with
  | VNumber n => VStr (Number_toString n)
  | _ => pmid
  end.

Definition getArticleMetadata (pmid : JsVal) : M (option ArticleRecord) :=
  let pmidStr := pmid_string pmid in
  id <- lift (ToString pmidStr) ;;
  _ <- console_print ("Fetching metadata for PMID: " ++ id) ;;
  getPubMedMetadata pmidStr.

(** [metadata?.pmcid] *)
Definition metadata_pmcid (metadata : option ArticleRecord) : JsVal :=
  match metadata with
  | Some r => pmcid r
  | None => VUndef
  end.

Definition downloadFullTextPdf (pmid : JsVal) : M JsVal :=
  let pmidStr := pmid_string pmid in
  id <- lift (ToString pmidStr) ;;
  _ <- console_print ("PDF download requested for PMID: " ++ id) ;;
  metadata <- getPubMedMetadata pmidStr ;;
  if truthy (metadata_pmcid metadata)
  then
    c <- lift (ToString (metadata_pmcid metadata)) ;;
    ret (VObj
           [ ("pdf_url",
              VStr ("https://www.ncbi.nlm.nih.gov/pmc/articles/" ++ c ++ "/pdf/"));
             ("message", VStr ("PDF may be available at PMC: " ++ c)) ])
  else
    ret (VObj
           [ ("message",
              VStr ("PDF not directly available for PMID "
                      ++ id ++ ". Check publisher website.")) ]).

(** * index.js: the Dispatcher *)

Variable JSON_stringify : JsVal -> string.

(** The [message] that the engine and the libraries give their errors. *)
Variable foreign_message : Fault -> string.

(** [error.message] *)
Definition message_of (e : Exn) : string :=
  match e with
  | Error message => message
  | Foreign fault => foreign_message fault
  end.

Record ContentBlock : Type := mkBlock { type : string; text : string }.

Record Response : Type := mkResponse { content : list ContentBlock }.

(** [{ content: [{ type: 'text', text: JSON.stringify(payload, null, 2) }] }] *)
Definition text_response (payload : JsVal) : Response :=
  {| content := [ {| type := "text"; text := JSON_stringify payload |} ] |}.

(** The response built in the [catch] block. *)
Definition error_response (errorMessage : string) : Response :=
  text_response (VObj [("error", VStr errorMessage)]).

Fixpoint indexed (i : nat) (l : list JsVal) : list (string * JsVal) :=
  match l with
  | [] => []
  | x :: rest => (NilZero.string_of_uint (Nat.to_uint i), x) :: indexed (S i) rest
  end.

Definition without (k : string) (fs : list (string * JsVal))
  : list (string * JsVal) :=
  filter (fun kv => negb (String.eqb (fst kv) k)) fs.

(** The rest object of [const { k, ...rest } = v] for a [v] that is
    neither [null] nor [undefined]. *)
Definition rest_without (k : string) (v : JsVal) : JsVal :=
  match v with
  | VObj fs | VBare fs => VObj (without k fs)
  | VArr l => VObj (without k (indexed 0 l))
  | VStr s => VObj (without k (indexed 0 (chars s)))
  | _ => VObj []
  end.

(** A destructuring default: [const { k = d } = ...]. *)
Definition default_to (d v : JsVal) : JsVal :=
  match v with
  | VUndef => d
  | _ => v
  end.

Definition records_to_js (l : list ArticleRecord) : JsVal :=
  VArr (map record_to_js l).

Definition metadata_to_js (m : option ArticleRecord) : JsVal :=
  match m with
  | Some r => record_to_js r
  | None => VNull
  end.

(** The body of the [try] block. *)
Definition dispatch (args : JsVal) : M Response :=
  if nullish args
  then throw (Foreign NullishAccess)
  else
    let method := get_field args "method" in
    let params := rest_without "method" args in
    if strict_eq_str method "search_keywords" then
      let keywords := get_field params "keywords" in
      let num_results := default_to (VNum 10) (get_field params "num_results") in
      if negb (truthy keywords)
      then throw (Error "keywords parameter is required for search_keywords")
      else
        results <- searchKeywords keywords num_results ;;
        ret (text_response (records_to_js results))
    else if strict_eq_str method "search_advanced" then
      let num_results := default_to (VNum 10) (get_field params "num_results") in
      let searchParams := rest_without "num_results" params in
      let advancedParams :=
        VObj (("method", method) :: ("num_results", num_results)
                :: match searchParams with VObj fs => fs | _ => [] end) in
      results <- searchAdvanced advancedParams ;;
      ret (text_response (records_to_js results))
    else if strict_eq_str method "get_article_metadata" then
      let pmid := get_field params "pmid" in
      if negb (truthy pmid)
      then throw (Error "pmid parameter is required for get_article_metadata")
      else
        result <- getArticleMetadata pmid ;;
        ret (text_response (metadata_to_js result))
    else if strict_eq_str method "get_article_pdf" then
      let pmid := get_field params "pmid" in
      if negb (truthy pmid)
      then throw (Error "pmid parameter is required for get_article_pdf")
      else
        result <- downloadFullTextPdf pmid ;;
        ret (text_response result)
    else
      m <- lift (ToString method) ;;
      throw (Error ("Unknown method: " ++ m)).

(** The handler registered for [CallToolRequestSchema]. *)
Definition CallTool (name : string) (args : JsVal) : M Response :=
  if negb (String.eqb name "pubmed_articles")
  then throw (Error ("Unknown tool: " ++ name))
  else
    try_catch (dispatch args)
      (fun error => ret (error_response (message_of error))).

End Gateway.

(** * The search result as the specification words it *)

Section Fetched.

Variable upstream : RequestLog -> string -> option JsVal.

(** The URL of the fetch of an identifier that converts to a string. *)
Definition fetch_url (pmid : JsVal) : string := efetch_url (render pmid).

(** The record that the fetch of one identifier yields when it is issued
    after the requests of [log], or [None] when the fetch yields no
    parsable record. *)
Definition fetched (pmid : JsVal) (log : RequestLog) : option ArticleRecord :=
  match upstream log (fetch_url pmid) with
  | Some doc =>
      match extract_record pmid doc with
      | Ok (Some r) => Some r
      | _ => None
      end
  | None => None
  end.

(** The records of the identifiers [ids], fetched one after the other in
    the order of [ids], the identifiers without a record left out. *)
Fixpoint fetched_records (ids : list JsVal) (log : RequestLog)
  : list ArticleRecord :=
  match ids with
  | [] => []
  | id :: rest =>
      match fetched id log with
      | Some r => r :: fetched_records rest (log ++ [fetch_url id])
      | None => fetched_records rest (log ++ [fetch_url id])
      end
  end.

End Fetched.

Definition option_list {A} (o : option A) : list A :=
  match o with
  | Some a => [a]
  | None => []
  end.

(** The values the tool schema allows for a filter: a string, or nothing. *)
Definition string_or_absent (v : JsVal) : Prop :=
  match v with
  | VUndef | VStr _ => True
  | _ => False
  end.

(** A filter of an advanced search is present when it is a string that is
    not empty. *)
Definition present (v : JsVal) : option string :=
  match v with
  | VStr "" => None
  | VStr s => Some s
  | _ => None
  end.

Definition tagged_clause (tag : string) (field : option string) : list string :=
  match field with
  | Some value => [(value ++ tag)%string]
  | None => []
  end.

(** [{start}:{end}[Date - Publication]], an absent start replaced by
    [1800] and an absent end by [3000]; no clause without either. *)
Definition date_clause (start_date end_date : option string) : list string :=
  match start_date, end_date with
  | None, None => []
  | Some s, Some e => [(s ++ ":" ++ e ++ "[Date - Publication]")%string]
  | Some s, None => [(s ++ ":" ++ "3000" ++ "[Date - Publication]")%string]
  | None, Some e => [("1800" ++ ":" ++ e ++ "[Date - Publication]")%string]
  end.

(** The clauses of an advanced search in the order term, title, author,
    journal, date range. *)
Definition advanced_clauses (term title author journal start_date end_date
                             : option string) : list string :=
  option_list term
  ++ tagged_clause "[Title]" title
  ++ tagged_clause "[Author]" author
  ++ tagged_clause "[Journal]" journal
  ++ date_clause start_date end_date.

(** The last name and the given name that the loop reads from one author
    entry. *)
Definition last_name_of (author : JsVal) : JsVal :=
  or_else (opt_index0 (get_field author "LastName")) (VStr "").

Definition fore_name_of (author : JsVal) : JsVal :=
  or_else (opt_index0 (get_field author "ForeName")) (VStr "").

(** The entry of one author: none without a last name, else the trimmed
    [LastName, ForeName]. *)
Definition entry_of (author : JsVal) : option string :=
  if truthy (last_name_of author)
  then Some (trim (render (last_name_of author) ++ ", "
                     ++ render (fore_name_of author)))
  else None.

(** [s] is the decimal numeral of [n]: an optional minus sign and digits,
    without leading zeros, whose value is [n]. *)
Definition decimal_numeral (s : string) (n : Z) : Prop :=
  exists d,
    NilZero.int_of_string s = Some d /\ Decimal.norm d = d /\ Z.of_int d = n.

(** * Sample payloads and upstreams *)

(** The documents are written as a recent [xml2js] builds them, with
    objects that have no prototype. *)

(** What [parseXML] gives for an element with text and one attribute. *)
Definition element (text attr value : string) : JsVal :=
  VBare [("_", VStr text); ("$", VBare [(attr, VStr value)])].

(** An [efetch] document with the given authors, publication date and
    identifiers; every other part is fixed. *)
Definition article_doc (authorList : list JsVal) (pubDate : JsVal)
                       (articleIds : list JsVal) : JsVal :=
  VBare [("PubmedArticleSet",
    VBare [("PubmedArticle", VArr [
      VBare [("MedlineCitation", VArr [
              VBare [("Article", VArr [
                      VBare [("Journal", VArr [
                              VBare [("JournalIssue", VArr [
                                      VBare [("PubDate", VArr [pubDate])]]);
                                    ("Title", VArr [VStr "Nature Medicine"])]]);
                            ("ArticleTitle", VArr [VStr "Gene editing"]);
                            ("Abstract", VArr [
                              VBare [("AbstractText", VArr [
                                      VStr "Background.";
                                      element "Results." "Label" "RESULTS"])]]);
                            ("AuthorList", VArr [
                              VBare [("Author", VArr authorList)]])]]);
                    ("MeshHeadingList", VArr [
                      VBare [("MeshHeading", VArr [
                              VBare [("DescriptorName", VArr [
                                      element "Humans" "UI" "D006801"])]])]]);
                    ("KeywordList", VArr [
                      VBare [("Keyword", VArr [
                              element "CRISPR" "MajorTopicYN" "N"])]])]]);
            ("PubmedData", VArr [
              VBare [("ArticleIdList", VArr [
                      VBare [("ArticleId", VArr articleIds)]])]])]])])].

Definition author_full : JsVal :=
  VBare [("LastName", VArr [VStr "Doe"]); ("ForeName", VArr [VStr "Jane"])].

Definition author_last_only : JsVal :=
  VBare [("LastName", VArr [VStr "Smith"])].

Definition author_collective : JsVal :=
  VBare [("CollectiveName", VArr [VStr "The Consortium"])].

Definition pubdate_full : JsVal :=
  VBare [("Year", VArr [VStr "2024"]); ("Month", VArr [VStr "Mar"]);
        ("Day", VArr [VStr "15"])].

(** A publication date given as free text, with no year, month or day
    element. *)
Definition pubdate_medline : JsVal :=
  VBare [("MedlineDate", VArr [VStr "2000 Spring"])].

Definition ids_doi_pmc : list JsVal :=
  [element "10.1038/s41591" "IdType" "doi";
   element "PMC1234567" "IdType" "pmc"].

Definition ids_doi_only : list JsVal :=
  [element "10.1038/s41591" "IdType" "doi"].

Definition sample_doc : JsVal :=
  article_doc [author_full; author_last_only; author_collective]
    pubdate_full ids_doi_pmc.

(** An [esearch] document listing [ids]. *)
Definition esearch_doc (ids : list JsVal) : JsVal :=
  VBare [("eSearchResult",
         VBare [("IdList", VArr [VBare [("Id", VArr ids)]])])].

(** An upstream that answers every search with the identifiers [ids] and
    every fetch with [doc]. *)
Definition fixed_upstream (ids : list JsVal) (doc : JsVal)
  : RequestLog -> string -> option JsVal :=
  fun _ url =>
    if String.prefix
         "https://eutils.ncbi.nlm.nih.gov/entrez/eutils/esearch.fcgi" url
    then Some (esearch_doc ids)
    else Some doc.

(** An upstream out of reach: every request fails. *)
Definition failing_upstream : RequestLog -> string -> option JsVal :=
  fun _ _ => None.

Definition quoted (s : string) : string :=
  let q := String (ascii_of_nat 34) "" in q ++ s ++ q.

(** A stand-in for [JSON.stringify] in the sample runs: compact, and
    without escapes. *)
Fixpoint sample_stringify (v : JsVal) : string :=
  match v with
  | VUndef | VNull => "null"
  | VBool true => "true"
  | VBool false => "false"
  | VNumber n => Number_toString n
  | VStr s => quoted s
  | VArr l => "[" ++ String.concat "," (map sample_stringify l) ++ "]"
  | VObj fs | VBare fs =>
      "{" ++ String.concat ","
               (map (fun kv => match kv with
                               | (k, x) =>
                                   (quoted k ++ ":" ++ sample_stringify x)%string
                               end) fs)
          ++ "}"
  end.

(** A stand-in for the wording of the engine and the libraries in the
    sample runs. *)
Definition sample_wording (f : Fault) : string :=
  match f with
  | NullishAccess => "engine: null or undefined has no properties"
  | NotIterable => "engine: value is not iterable"
  | NotCallable => "engine: value is not a function"
  | NotPrimitive => "engine: cannot convert object to primitive value"
  | RequestFailed => "library: request failed"
  end.

(** The uniform error response as the specification words it: one text
    block whose payload is the object [{ "error": message }]. *)
Definition error_envelope (JSON_stringify : JsVal -> string) (message : string)
  : Response :=
  {| content :=
       [ {| type := "text";
            text := JSON_stringify (VObj [("error", VStr message)]) |} ] |}.

(** * The tool schema announced by the [ListToolsRequestSchema] handler *)

(** The [enum] of the [method] property. *)
Definition schema_method_enum : list string :=
  ["search_keywords"; "search_advanced"; "get_article_metadata";
   "get_article_pdf"].

(** The names of the [properties] of the input schema, in its order. *)
Definition schema_properties : list string :=
  ["method"; "keywords"; "num_results"; "pmid"; "term"; "title"; "author";
   "journal"; "start_date"; "end_date"].

(** * Auxiliary notions for the statements *)

(** What one [Id] element of a search answer contributes to the list of
    identifiers. *)
Definition id_text (id : JsVal) : list JsVal :=
  if is_string id then [id]
  else if truthy (opt_prop id "_") then [opt_prop id "_"]
  else [].

(** The test of the identifier loops: the element has attributes and its
    [IdType] is [idType]. *)
Definition id_matches (idType : string) (id : JsVal) : bool :=
  truthy (get_field id "$")
  && strict_eq_str (get_field (get_field id "$") "IdType") idType.

(** The text of the first identifier of the given type, the empty string
    when there is none. *)
Definition first_text_of_type (idType : string) (l : list JsVal) : JsVal :=
  match find (id_matches idType) l with
  | Some id => get_field id "_"
  | None => VStr ""
  end.

(** The parsed document handed to the extraction, down to the citation. *)
Definition doc_article (result : JsVal) : JsVal :=
  opt_index0 (opt_prop (opt_prop result "PubmedArticleSet") "PubmedArticle").

Definition doc_citation (result : JsVal) : JsVal :=
  opt_index0 (get_field (doc_article result) "MedlineCitation").

Definition doc_article_ids (result : JsVal) : JsVal :=
  opt_prop
    (opt_index0
       (opt_prop (opt_index0 (get_field (doc_article result) "PubmedData"))
          "ArticleIdList"))
    "ArticleId".

(** The text kept for one segment of the abstract. *)
Definition segment_value (text : JsVal) : JsVal :=
  if is_string text then text else or_else (get_field text "_") (VStr "").

(** A document with a citation and nothing in it but the identifier. *)
Definition bare_doc : JsVal :=
  VBare [("PubmedArticleSet",
    VBare [("PubmedArticle", VArr [
      VBare [("MedlineCitation", VArr [
              VBare [("PMID", VArr [VStr "31452104"])]])]])])].

(** The record extracted from [bare_doc]. *)
Definition bare_record : ArticleRecord :=
  {| pmid := VStr "31452104";
     title := VStr "No title available";
     authors := [];
     journal := VStr "Unknown journal";
     publication_date := "Unknown date";
     abstract := "";
     doi := VStr "";
     pmcid := VStr "";
     keywords := [];
     mesh_terms := [];
     url := "https://pubmed.ncbi.nlm.nih.gov/31452104/" |}.

(** The record extracted from [sample_doc]. *)
Definition sample_record : ArticleRecord :=
  {| pmid := VStr "31452104";
     title := VStr "Gene editing";
     authors := ["Doe, Jane"; "Smith,"];
     journal := VStr "Nature Medicine";
     publication_date := "2024-Mar-15";
     abstract := "Background. Results.";
     doi := VStr "10.1038/s41591";
     pmcid := VStr "PMC1234567";
     keywords := [VStr "CRISPR"];
     mesh_terms := [VStr "Humans"];
     url := "https://pubmed.ncbi.nlm.nih.gov/31452104/" |}.

(** The [Author] elements of a parsed document. *)
Definition doc_author_list (result : JsVal) : JsVal :=
  opt_prop
    (opt_index0
       (opt_prop (opt_index0 (get_field (doc_citation result) "Article"))
          "AuthorList"))
    "Author".

(** The [Id] elements of a parsed search answer. *)
Definition doc_id_list (result : JsVal) : JsVal :=
  opt_prop (opt_index0 (opt_prop (opt_prop result "eSearchResult") "IdList"))
    "Id".

(** The segments of the abstract of a parsed document. *)
Definition doc_abstract_texts (result : JsVal) : JsVal :=
  opt_prop
    (opt_index0
       (opt_prop (opt_index0 (get_field (doc_citation result) "Article"))
          "Abstract"))
    "AbstractText".

(** The [PubDate] element of a parsed document. *)
Definition doc_pub_date (result : JsVal) : JsVal :=
  opt_index0
    (opt_prop
       (opt_index0
          (opt_prop
             (opt_index0
                (opt_prop (opt_index0 (get_field (doc_citation result) "Article"))
                   "Journal"))
             "JournalIssue"))
       "PubDate").

(** A computation that throws nothing but the error of a failed conversion
    to a string. *)
Definition throws_conversion_only {A} (c : Result A) : Prop :=
  forall e, c = Throw e -> e = Foreign NotPrimitive.

(** The own properties of an object. *)
Definition own_fields (v : JsVal) : list (string * JsVal) :=
  match v with
  | VObj fs | VBare fs => fs
  | _ => []
  end.

(** Case analysis on every test and every bind of a hypothesis about a
    computation in [Result]. *)
Ltac split_result H :=
  repeat (match type of H with
          | context [if ?b then _ else _] => destruct b
          | context [bindR ?c _] => destruct c; simpl in H
          end; try discriminate H).


(** * Facts about the primitives *)

Lemma assoc_without (k k' : string) (fs : list (string * JsVal)) :
  k <> k' -> assoc k (without k' fs) = assoc k fs.
Proof.
  intros Hne. induction fs as [|[k0 v] fs IH]; simpl; [reflexivity|].
  destruct (String.eqb k0 k') eqn:E0; simpl.
  - apply String.eqb_eq in E0. subst k0.
    destruct (String.eqb k k') eqn:E1; [apply String.eqb_eq in E1; contradiction|].
    exact IH.
  - destruct (String.eqb k k0); [reflexivity | exact IH].
Qed.

Lemma Number_toString_nonempty (n : SafeInt) : Number_toString n <> "".
Proof.
  unfold Number_toString.
  destruct (Z.to_int (int_value n)) as [d|d]; simpl; [|discriminate].
  destruct d; simpl; discriminate.
Qed.

Lemma truthy_Number_toString (n : SafeInt) :
  truthy (VStr (Number_toString n)) = true.
Proof.
  pose proof (Number_toString_nonempty n) as H.
  destruct (Number_toString n); [contradiction | reflexivity].
Qed.

(** The decimal numeral of a number is what [toString] prints. *)
Lemma Number_toString_numeral (n : SafeInt) (s : string) :
  decimal_numeral s (int_value n) -> Number_toString n = s.
Proof.
  intros (d & Hs & Hn & Hv). unfold Number_toString.
  rewrite <- Hv, DecimalZ.to_of, Hn. exact (NilZero.sis _ _ Hs).
Qed.

(** Every number has a decimal numeral, the one [toString] prints. *)
Lemma Number_toString_is_numeral (n : SafeInt) :
  decimal_numeral (Number_toString n) (int_value n).
Proof.
  unfold decimal_numeral, Number_toString.
  assert (Hnorm : Decimal.norm (Z.to_int (int_value n)) = Z.to_int (int_value n)).
  { rewrite <- DecimalZ.to_of. now rewrite DecimalZ.of_to. }
  exists (Z.to_int (int_value n)). split; [|split].
  - apply NilZero.isi; intros E; rewrite E in Hnorm; discriminate Hnorm.
  - exact Hnorm.
  - apply DecimalZ.of_to.
Qed.

Lemma truthy_not_nullish (v : JsVal) : truthy v = true -> nullish v = false.
Proof. destruct v; simpl; intros H; try reflexivity; discriminate. Qed.

Lemma prop_truthy (v : JsVal) (k : string) :
  truthy v = true -> prop v k = Ok (get_field v k).
Proof. intros H. unfold prop. now rewrite (truthy_not_nullish _ H). Qed.

Lemma truthy_or_else (a b : JsVal) :
  truthy b = true -> truthy (or_else a b) = true.
Proof. intros H. unfold or_else. destruct (truthy a) eqn:E; assumption. Qed.

Lemma or_else_falsy (a b : JsVal) : truthy a = false -> or_else a b = b.
Proof. intros H. unfold or_else. now rewrite H. Qed.

(** ** The conversion to a string *)

Lemma ToString_convertible (v : JsVal) :
  convertible v = true -> ToString v = Ok (render v).
Proof. intros H. unfold ToString. now rewrite H. Qed.

Lemma ToString_not_convertible (v : JsVal) :
  convertible v = false -> ToString v = Throw (Foreign NotPrimitive).
Proof. intros H. unfold ToString. now rewrite H. Qed.

Lemma ToString_Ok (v : JsVal) (s : string) :
  ToString v = Ok s -> convertible v = true /\ s = render v.
Proof.
  unfold ToString. destruct (convertible v); [|discriminate].
  intros H. inversion H. split; reflexivity.
Qed.

Lemma ToString_Throw (v : JsVal) (e : Exn) :
  ToString v = Throw e -> convertible v = false /\ e = Foreign NotPrimitive.
Proof.
  unfold ToString. destruct (convertible v); [discriminate|].
  intros H. inversion H. split; reflexivity.
Qed.

Lemma ToString_cases (v : JsVal) :
  ToString v = Ok (render v) \/ ToString v = Throw (Foreign NotPrimitive).
Proof. unfold ToString. destruct (convertible v); [now left | now right]. Qed.

Lemma Array_join_strings (sep : string) (l : list string) :
  Array_join sep (map VStr l) = Ok (String.concat sep l).
Proof.
  unfold Array_join.
  assert (H : forallb (fun x => nullish x || convertible x) (map VStr l) = true)
    by (induction l; simpl; auto).
  rewrite H, map_map. simpl. now rewrite map_id.
Qed.

(** ** Strings: [trim] *)

Lemma append_nonempty (a b : string) : a <> "" -> (a ++ b)%string <> "".
Proof. destruct a; [contradiction | discriminate]. Qed.

Lemma concat_nonempty (sep x : string) (l : list string) :
  x <> "" -> String.concat sep (x :: l) <> "".
Proof.
  intros Hx. destruct l; simpl; [exact Hx | now apply append_nonempty].
Qed.

Lemma trimEnd_app (a b : string) :
  trimEnd b <> "" -> trimEnd (a ++ b) = (a ++ trimEnd b)%string.
Proof.
  intros Hb. induction a as [|c a IH]; simpl; [reflexivity|].
  rewrite IH. destruct (a ++ trimEnd b)%string eqn:E; [|reflexivity].
  exfalso. destruct a; simpl in E; [contradiction | discriminate].
Qed.

Lemma trimStart_app (a b : string) :
  trimStart a <> "" -> trimStart (a ++ b) = (trimStart a ++ b)%string.
Proof.
  induction a as [|c a IH]; simpl; [contradiction|].
  destruct (is_js_space c); [exact IH | reflexivity].
Qed.

Lemma trimStart_blank (a b : string) :
  trimStart a = "" -> trimStart (a ++ b) = trimStart b.
Proof.
  induction a as [|c a IH]; simpl; [reflexivity|].
  destruct (is_js_space c); [exact IH | discriminate].
Qed.

(** The separator survives [trim] up to its comma: only white space goes. *)
Lemma trim_last_name_only (ln : string) :
  trim (ln ++ ", " ++ "") = (trimStart ln ++ ",")%string.
Proof.
  change (", " ++ "")%string with ", ". unfold trim.
  destruct (string_dec (trimStart ln) "") as [E|E].
  - rewrite trimStart_blank by exact E. rewrite E. reflexivity.
  - rewrite trimStart_app by exact E.
    rewrite trimEnd_app; [reflexivity | discriminate].
Qed.

Lemma trim_clean (ln fn : string) :
  trimStart ln = ln -> ln <> "" -> trimEnd fn = fn -> fn <> "" ->
  trim (ln ++ ", " ++ fn) = (ln ++ ", " ++ fn)%string.
Proof.
  intros Hl Hl0 Hf Hf0. unfold trim.
  rewrite trimStart_app by (rewrite Hl; exact Hl0). rewrite Hl.
  rewrite trimEnd_app.
  - f_equal. change (", " ++ fn)%string with (String "," (String " " fn)).
    simpl. rewrite Hf. destruct fn; [contradiction | reflexivity].
  - change (", " ++ fn)%string with (String "," (String " " fn)).
    simpl. destruct (trimEnd fn); discriminate.
Qed.

Lemma trimEnd_ink (x : string) (c : ascii) (r : string) :
  is_js_space c = false -> trimEnd (x ++ String c r) <> "".
Proof.
  intros Hc. induction x as [|d x IH]; simpl.
  - rewrite Hc. destruct (trimEnd r); discriminate.
  - destruct (trimEnd (x ++ String c r)); [contradiction | discriminate].
Qed.

Lemma trim_separator_nonempty (a b : string) : trim (a ++ ", " ++ b) <> "".
Proof.
  unfold trim. change (", " ++ b)%string with (String "," (String " " b)).
  destruct (string_dec (trimStart a) "") as [E|E].
  - rewrite trimStart_blank by exact E. simpl trimStart.
    apply (trimEnd_ink "" "," (String " " b)). reflexivity.
  - rewrite trimStart_app by exact E. apply trimEnd_ink. reflexivity.
Qed.

(** * The Gateway *)

Section GatewayFacts.

Variable upstream : RequestLog -> string -> option JsVal.

(** The search step issues one request and always returns a list. *)
Lemma searchPubMed_returns (url : string) (log : RequestLog) :
  exists ids, searchPubMed upstream url log = (Ok ids, log ++ [url]).
Proof.
  unfold searchPubMed, try_catch, bind, http_get_xml, lift, ret.
  destruct (upstream log url) as [doc|]; [|eauto].
  destruct (parse_id_list doc); eauto.
Qed.

(** One fetch of an identifier that converts to a string issues one
    request and does not throw. *)
Lemma getPubMedMetadata_run (p : JsVal) (log : RequestLog) :
  convertible p = true ->
  getPubMedMetadata upstream p log =
  (Ok (fetched upstream p log), log ++ [fetch_url p]).
Proof.
  intros Hc.
  unfold getPubMedMetadata, fetched, fetch_url, try_catch, bind, http_get_xml,
    lift, ret, console_print.
  rewrite (ToString_convertible _ Hc).
  destruct (upstream log (efetch_url (render p))) as [doc|]; [|reflexivity].
  destruct (extract_record p doc) as [[r|]|e]; reflexivity.
Qed.

(** The fetch of an identifier that does not convert throws before any
    request: the handler of the [catch] block converts it again. *)
Lemma getPubMedMetadata_throws (p : JsVal) (log : RequestLog) :
  convertible p = false ->
  getPubMedMetadata upstream p log = (Throw (Foreign NotPrimitive), log).
Proof.
  intros Hc.
  unfold getPubMedMetadata, try_catch, bind, lift.
  rewrite (ToString_not_convertible _ Hc). reflexivity.
Qed.

Lemma fetch_each_run (ids : list JsVal) :
  Forall (fun id => convertible id = true) ids ->
  forall (acc : list ArticleRecord) (log : RequestLog),
    fetch_each upstream ids acc log =
    (Ok (acc ++ fetched_records upstream ids log), log ++ map fetch_url ids).
Proof.
  induction 1 as [|id rest Hid _ IH]; intros acc log; simpl.
  - unfold ret. now rewrite !app_nil_r.
  - unfold bind. rewrite (getPubMedMetadata_run _ _ Hid).
    destruct (fetched upstream id log) as [r|]; rewrite IH.
    + now rewrite <- !app_assoc.
    + now rewrite <- app_assoc.
Qed.

(** The loop returns only when every identifier converts. *)
Lemma fetch_each_Ok (ids : list JsVal) :
  forall (acc res : list ArticleRecord) (log log' : RequestLog),
    fetch_each upstream ids acc log = (Ok res, log') ->
    Forall (fun id => convertible id = true) ids.
Proof.
  induction ids as [|id rest IH]; intros acc res log log' H; [constructor|].
  simpl in H. unfold bind in H.
  destruct (convertible id) eqn:Hc.
  - constructor; [exact Hc|].
    rewrite (getPubMedMetadata_run _ _ Hc) in H.
    destruct (fetched upstream id log); exact (IH _ _ _ _ H).
  - rewrite (getPubMedMetadata_throws _ _ Hc) in H. discriminate H.
Qed.

(** The loop only adds requests, and what it throws is never an error of
    the program's own making. *)
Lemma fetch_each_outcome (ids : list JsVal) :
  forall (acc : list ArticleRecord) (log : RequestLog),
    exists out rest,
      fetch_each upstream ids acc log = (out, log ++ rest)
      /\ forall e, out = Throw e -> e = Foreign NotPrimitive.
Proof.
  induction ids as [|id ids IH]; intros acc log; simpl.
  - exists (Ok acc), []. unfold ret. rewrite app_nil_r.
    split; [reflexivity | discriminate].
  - unfold bind. destruct (convertible id) eqn:Hc.
    + rewrite (getPubMedMetadata_run _ _ Hc).
      destruct (fetched upstream id log) as [r|].
      * destruct (IH (acc ++ [r]) (log ++ [fetch_url id])) as (out & rest & -> & Hf).
        exists out, (fetch_url id :: rest). rewrite <- app_assoc. now split.
      * destruct (IH acc (log ++ [fetch_url id])) as (out & rest & -> & Hf).
        exists out, (fetch_url id :: rest). rewrite <- app_assoc. now split.
    + rewrite (getPubMedMetadata_throws _ _ Hc).
      exists (Throw (Foreign NotPrimitive)), []. rewrite app_nil_r.
      split; [reflexivity|]. intros e H. now inversion H.
Qed.

Lemma fetched_records_length (ids : list JsVal) :
  forall log, length (fetched_records upstream ids log) <= length ids.
Proof.
  induction ids as [|id rest IH]; intros log; simpl; [lia|].
  destruct (fetched upstream id log); simpl;
    specialize (IH (log ++ [fetch_url id])); lia.
Qed.

Lemma search_url_default (term numResults : JsVal) :
  generatePubMedSearchUrl term
    (match numResults with VUndef => VNum 10 | v => v end)
  = generatePubMedSearchUrl term numResults.
Proof. destruct numResults; reflexivity. Qed.

Lemma generatePubMedSearchUrl_Ok (term numResults : JsVal) (url : string) :
  generatePubMedSearchUrl term numResults = Ok url ->
  ToString term = Ok (render term).
Proof.
  unfold generatePubMedSearchUrl. intros H.
  destruct (ToString_cases term) as [E|E]; [exact E|].
  rewrite E in H. discriminate H.
Qed.

Lemma generatePubMedSearchUrl_Throw (term numResults : JsVal) (e : Exn) :
  generatePubMedSearchUrl term numResults = Throw e -> e = Foreign NotPrimitive.
Proof.
  unfold generatePubMedSearchUrl. cbv zeta. intros H.
  destruct (ToString_cases term) as [E|E]; rewrite E in H; simpl in H;
    [|now inversion H].
  match type of H with
  | context [ToString ?v] =>
      destruct (ToString_cases v) as [E'|E']; rewrite E' in H; simpl in H
  end; [discriminate H | now inversion H].
Qed.

(** A keyword search whose URL can be built is the search request followed
    by the loop of fetches. *)
Lemma searchKeywords_unfold (kw numResults : JsVal) (url : string)
      (log : RequestLog) (ids : list JsVal) :
  generatePubMedSearchUrl kw numResults = Ok url ->
  searchPubMed upstream url log = (Ok ids, log ++ [url]) ->
  searchKeywords upstream kw numResults log
  = fetch_each upstream ids [] (log ++ [url]).
Proof.
  intros Hu Hs. unfold searchKeywords, bind, lift, console_print, ret.
  rewrite (generatePubMedSearchUrl_Ok _ _ _ Hu), search_url_default, Hu, Hs.
  reflexivity.
Qed.

(** A keyword search whose URL cannot be built throws before any
    request. *)
Lemma searchKeywords_throws (kw numResults : JsVal) (e : Exn) (log : RequestLog) :
  generatePubMedSearchUrl kw numResults = Throw e ->
  searchKeywords upstream kw numResults log = (Throw (Foreign NotPrimitive), log).
Proof.
  intros Hu. unfold searchKeywords, bind, lift, console_print, ret.
  destruct (ToString_cases kw) as [E|E]; rewrite E; [|reflexivity].
  rewrite search_url_default, Hu.
  now rewrite (generatePubMedSearchUrl_Throw _ _ _ Hu).
Qed.

Lemma searchKeywords_run (kw numResults : JsVal) (url : string)
      (log : RequestLog) (ids : list JsVal) :
  generatePubMedSearchUrl kw numResults = Ok url ->
  searchPubMed upstream url log = (Ok ids, log ++ [url]) ->
  Forall (fun id => convertible id = true) ids ->
  searchKeywords upstream kw numResults log =
  (Ok (fetched_records upstream ids (log ++ [url])),
   (log ++ [url]) ++ map fetch_url ids).
Proof.
  intros Hu Hs Hc.
  rewrite (searchKeywords_unfold _ _ _ _ _ Hu Hs), (fetch_each_run _ Hc).
  reflexivity.
Qed.

(** An advanced search whose query is not empty and whose URL can be built
    is the search request followed by the loop of fetches. *)
Lemma searchAdvanced_unfold (params : JsVal) (q url : string)
      (log : RequestLog) (ids : list JsVal) :
  nullish params = false ->
  searchAdvanced_query params = Ok q ->
  q <> "" ->
  generatePubMedSearchUrl (VStr q)
    (or_else (get_field params "num_results") (VNum 10)) = Ok url ->
  searchPubMed upstream url log = (Ok ids, log ++ [url]) ->
  searchAdvanced upstream params log
  = fetch_each upstream ids [] (log ++ [url]).
Proof.
  intros Hn Hq Hne Hu Hs.
  unfold searchAdvanced, bind, lift, console_print, ret. rewrite Hn, Hq.
  destruct (String.eqb q "") eqn:E;
    [apply String.eqb_eq in E; contradiction|].
  rewrite Hu, Hs. reflexivity.
Qed.

Lemma searchAdvanced_run (params : JsVal) (q url : string)
      (log : RequestLog) (ids : list JsVal) :
  nullish params = false ->
  searchAdvanced_query params = Ok q ->
  q <> "" ->
  generatePubMedSearchUrl (VStr q)
    (or_else (get_field params "num_results") (VNum 10)) = Ok url ->
  searchPubMed upstream url log = (Ok ids, log ++ [url]) ->
  Forall (fun id => convertible id = true) ids ->
  searchAdvanced upstream params log =
  (Ok (fetched_records upstream ids (log ++ [url])),
   (log ++ [url]) ++ map fetch_url ids).
Proof.
  intros Hn Hq Hne Hu Hs Hc.
  rewrite (searchAdvanced_unfold _ _ _ _ _ Hn Hq Hne Hu Hs),
    (fetch_each_run _ Hc).
  reflexivity.
Qed.

(** An advanced search that returns has gone through all of its steps. *)
Lemma searchAdvanced_Ok (params : JsVal) (articles : list ArticleRecord)
      (log log' : RequestLog) :
  searchAdvanced upstream params log = (Ok articles, log') ->
  exists q url ids,
    nullish params = false
    /\ searchAdvanced_query params = Ok q
    /\ q <> ""
    /\ generatePubMedSearchUrl (VStr q)
         (or_else (get_field params "num_results") (VNum 10)) = Ok url
    /\ searchPubMed upstream url log = (Ok ids, log ++ [url])
    /\ fetch_each upstream ids [] (log ++ [url]) = (Ok articles, log').
Proof.
  intros H. unfold searchAdvanced in H.
  destruct (nullish params) eqn:Hn; [discriminate H|].
  unfold bind, lift, console_print, ret in H.
  destruct (searchAdvanced_query params) as [q|] eqn:Hq; [|discriminate H].
  destruct (String.eqb q "") eqn:E; [discriminate H|].
  apply String.eqb_neq in E.
  destruct (generatePubMedSearchUrl (VStr q)
              (or_else (get_field params "num_results") (VNum 10)))
    as [url|] eqn:Hu; [|discriminate H].
  destruct (searchPubMed_returns url log) as [ids Hs]. rewrite Hs in H.
  exists q, url, ids. repeat split; assumption.
Qed.

(** A keyword search that returns has gone through all of its steps. *)
Lemma searchKeywords_Ok (kw numResults : JsVal) (articles : list ArticleRecord)
      (log log' : RequestLog) :
  searchKeywords upstream kw numResults log = (Ok articles, log') ->
  exists url ids,
    generatePubMedSearchUrl kw numResults = Ok url
    /\ searchPubMed upstream url log = (Ok ids, log ++ [url])
    /\ fetch_each upstream ids [] (log ++ [url]) = (Ok articles, log').
Proof.
  intros H.
  destruct (generatePubMedSearchUrl kw numResults) as [url|e] eqn:Hu.
  - destruct (searchPubMed_returns url log) as [ids Hs].
    rewrite (searchKeywords_unfold _ _ _ _ _ Hu Hs) in H.
    exists url, ids. repeat split; assumption.
  - rewrite (searchKeywords_throws _ _ _ _ Hu) in H. discriminate H.
Qed.

(** A record carries the identifier it was fetched for. *)
Lemma extract_record_pmid (p doc : JsVal) (r : ArticleRecord) :
  extract_record p doc = Ok (Some r) ->
  pmid r = p /\ ToString p = Ok (render p) /\ url r = article_url (render p).
Proof.
  intros H. unfold extract_record in H.
  destruct (ToString_cases p) as [E|E]; rewrite E in H; split_result H.
  inversion H; subst; simpl. repeat split; assumption || reflexivity.
Qed.

Lemma fetched_pmid (p : JsVal) (log : RequestLog) (r : ArticleRecord) :
  fetched upstream p log = Some r ->
  pmid r = p /\ ToString p = Ok (render p) /\ url r = article_url (render p).
Proof.
  unfold fetched. destruct (upstream log (fetch_url p)) as [doc|]; [|discriminate].
  destruct (extract_record p doc) as [[r'|]|e] eqn:E; try discriminate.
  intros H; inversion H; subst. exact (extract_record_pmid _ _ _ E).
Qed.

Lemma fetched_records_from_ids (ids : list JsVal) :
  forall (log : RequestLog) (r : ArticleRecord),
    In r (fetched_records upstream ids log) ->
    exists id,
      In id ids /\ pmid r = id /\ ToString id = Ok (render id)
      /\ url r = article_url (render id).
Proof.
  induction ids as [|id rest IH]; intros log r Hin; simpl in Hin; [contradiction|].
  destruct (fetched upstream id log) as [r0|] eqn:E.
  - destruct Hin as [<- | Hin].
    + exists id. split; [now left | exact (fetched_pmid _ _ _ E)].
    + destruct (IH _ _ Hin) as (id' & Hid & Hr). exists id'. split; [now right | exact Hr].
  - destruct (IH _ _ Hin) as (id' & Hid & Hr). exists id'. split; [now right | exact Hr].
Qed.

End GatewayFacts.

(** * The Dispatcher *)

Lemma strict_eq_str_true (v : JsVal) (lit : string) :
  strict_eq_str v lit = true -> v = VStr lit.
Proof.
  destruct v; simpl; try discriminate. intros H.
  apply String.eqb_eq in H. now subst.
Qed.

Lemma strict_eq_str_other (m lit : string) :
  m <> lit -> strict_eq_str (VStr m) lit = false.
Proof. intros H. simpl. now apply String.eqb_neq. Qed.

Lemma method_is_object (args : JsVal) (m : string) :
  get_field args "method" = VStr m ->
  nullish args = false
  /\ rest_without "method" args = VObj (without "method" (own_fields args))
  /\ forall k, get_field args k = assoc k (own_fields args).
Proof.
  destruct args; simpl; try discriminate; intros _; repeat split.
Qed.

Lemma params_field (args : JsVal) (m k : string) :
  get_field args "method" = VStr m ->
  k <> "method" ->
  get_field (rest_without "method" args) k = get_field args k.
Proof.
  intros Hm Hk. destruct (method_is_object _ _ Hm) as (_ & -> & Hf).
  rewrite Hf. simpl. now apply assoc_without.
Qed.

(** The object handed to [searchAdvanced] carries the filters of the
    argument object unchanged. *)
Lemma advancedParams_field (fs : list (string * JsVal)) (m nr : JsVal) (k : string) :
  k <> "method" -> k <> "num_results" ->
  assoc k (("method", m) :: ("num_results", nr)
             :: without "num_results" (without "method" fs)) = assoc k fs.
Proof.
  intros H1 H2. simpl.
  destruct (String.eqb k "method") eqn:E1;
    [apply String.eqb_eq in E1; contradiction|].
  destruct (String.eqb k "num_results") eqn:E2;
    [apply String.eqb_eq in E2; contradiction|].
  rewrite !assoc_without by assumption. reflexivity.
Qed.

Lemma tagged_term_falsy (v : JsVal) (tag : string) :
  truthy v = false -> tagged_term v tag = Ok [].
Proof. intros H. unfold tagged_term. now rewrite H. Qed.

Lemma no_terms_without_filters (params : JsVal) :
  truthy (get_field params "term") = false ->
  truthy (get_field params "title") = false ->
  truthy (get_field params "author") = false ->
  truthy (get_field params "journal") = false ->
  truthy (get_field params "start_date") = false ->
  truthy (get_field params "end_date") = false ->
  searchAdvanced_terms params = Ok [].
Proof.
  intros H1 H2 H3 H4 H5 H6. unfold searchAdvanced_terms.
  rewrite !tagged_term_falsy by assumption. rewrite H1, H5, H6. reflexivity.
Qed.

Lemma searchAdvanced_terms_ext (p1 p2 : JsVal) :
  get_field p1 "term" = get_field p2 "term" ->
  get_field p1 "title" = get_field p2 "title" ->
  get_field p1 "author" = get_field p2 "author" ->
  get_field p1 "journal" = get_field p2 "journal" ->
  get_field p1 "start_date" = get_field p2 "start_date" ->
  get_field p1 "end_date" = get_field p2 "end_date" ->
  searchAdvanced_terms p1 = searchAdvanced_terms p2.
Proof.
  intros H1 H2 H3 H4 H5 H6. unfold searchAdvanced_terms.
  now rewrite H1, H2, H3, H4, H5, H6.
Qed.

(** An advanced search reads its argument only through the six filters
    and through [num_results || 10]. *)
Lemma searchAdvanced_ext (upstream : RequestLog -> string -> option JsVal)
      (p1 p2 : JsVal) (log : RequestLog) :
  nullish p1 = false -> nullish p2 = false ->
  get_field p1 "term" = get_field p2 "term" ->
  get_field p1 "title" = get_field p2 "title" ->
  get_field p1 "author" = get_field p2 "author" ->
  get_field p1 "journal" = get_field p2 "journal" ->
  get_field p1 "start_date" = get_field p2 "start_date" ->
  get_field p1 "end_date" = get_field p2 "end_date" ->
  or_else (get_field p1 "num_results") (VNum 10)
  = or_else (get_field p2 "num_results") (VNum 10) ->
  searchAdvanced upstream p1 log = searchAdvanced upstream p2 log.
Proof.
  intros N1 N2 H1 H2 H3 H4 H5 H6 Hn. unfold searchAdvanced, searchAdvanced_query.
  rewrite N1, N2, Hn, (searchAdvanced_terms_ext p1 p2) by assumption.
  reflexivity.
Qed.

Lemma or_else_default (v : JsVal) :
  or_else (default_to (VNum 10) v) (VNum 10) = or_else v (VNum 10).
Proof. destruct v; reflexivity. Qed.

Section DispatcherFacts.

Variable upstream : RequestLog -> string -> option JsVal.
Variable JSON_stringify : JsVal -> string.
Variable foreign_message : Fault -> string.

(** What [try]/[catch] does with the outcome of the [switch]. *)
Lemma CallTool_outcome (args : JsVal) (log : RequestLog) :
  CallTool upstream JSON_stringify foreign_message "pubmed_articles" args log =
  match dispatch upstream JSON_stringify args log with
  | (Ok resp, log') => (Ok resp, log')
  | (Throw e, log') =>
      (Ok (error_response JSON_stringify (message_of foreign_message e)), log')
  end.
Proof.
  unfold CallTool, try_catch. simpl.
  destruct (dispatch upstream JSON_stringify args log) as [[resp|e] log'];
    reflexivity.
Qed.

Lemma dispatch_nullish (args : JsVal) (log : RequestLog) :
  nullish args = true ->
  dispatch upstream JSON_stringify args log = (Throw (Foreign NullishAccess), log).
Proof. intros H. unfold dispatch. now rewrite H. Qed.

Lemma dispatch_unknown_method (args : JsVal) (log : RequestLog) :
  nullish args = false ->
  strict_eq_str (get_field args "method") "search_keywords" = false ->
  strict_eq_str (get_field args "method") "search_advanced" = false ->
  strict_eq_str (get_field args "method") "get_article_metadata" = false ->
  strict_eq_str (get_field args "method") "get_article_pdf" = false ->
  dispatch upstream JSON_stringify args log =
  match ToString (get_field args "method") with
  | Ok m => (Throw (Error ("Unknown method: " ++ m)), log)
  | Throw e => (Throw e, log)
  end.
Proof.
  intros H0 H1 H2 H3 H4. unfold dispatch.
  rewrite H0, H1, H2, H3, H4. unfold bind, lift, throw.
  destruct (ToString (get_field args "method")); reflexivity.
Qed.

Lemma dispatch_search_keywords (args : JsVal) (log : RequestLog) :
  get_field args "method" = VStr "search_keywords" ->
  dispatch upstream JSON_stringify args log =
  (if negb (truthy (get_field args "keywords"))
   then throw (Error "keywords parameter is required for search_keywords")
   else
     results <- searchKeywords upstream (get_field args "keywords")
                  (default_to (VNum 10) (get_field args "num_results")) ;;
     ret (text_response JSON_stringify (records_to_js results))) log.
Proof.
  intros Hm. destruct (method_is_object _ _ Hm) as (Hn & _ & _).
  unfold dispatch. rewrite Hn, Hm.
  change (strict_eq_str (VStr "search_keywords") "search_keywords") with true.
  cbv iota zeta. rewrite !(params_field _ _ _ Hm) by discriminate. reflexivity.
Qed.

Lemma dispatch_get_article_metadata (args : JsVal) (log : RequestLog) :
  get_field args "method" = VStr "get_article_metadata" ->
  dispatch upstream JSON_stringify args log =
  (if negb (truthy (get_field args "pmid"))
   then throw (Error "pmid parameter is required for get_article_metadata")
   else
     result <- getArticleMetadata upstream (get_field args "pmid") ;;
     ret (text_response JSON_stringify (metadata_to_js result))) log.
Proof.
  intros Hm. destruct (method_is_object _ _ Hm) as (Hn & _ & _).
  unfold dispatch. rewrite Hn, Hm.
  change (strict_eq_str (VStr "get_article_metadata") "search_keywords") with false.
  change (strict_eq_str (VStr "get_article_metadata") "search_advanced") with false.
  change (strict_eq_str (VStr "get_article_metadata") "get_article_metadata") with true.
  cbv iota zeta. rewrite !(params_field _ _ _ Hm) by discriminate. reflexivity.
Qed.

Lemma dispatch_get_article_pdf (args : JsVal) (log : RequestLog) :
  get_field args "method" = VStr "get_article_pdf" ->
  dispatch upstream JSON_stringify args log =
  (if negb (truthy (get_field args "pmid"))
   then throw (Error "pmid parameter is required for get_article_pdf")
   else
     result <- downloadFullTextPdf upstream (get_field args "pmid") ;;
     ret (text_response JSON_stringify result)) log.
Proof.
  intros Hm. destruct (method_is_object _ _ Hm) as (Hn & _ & _).
  unfold dispatch. rewrite Hn, Hm.
  change (strict_eq_str (VStr "get_article_pdf") "search_keywords") with false.
  change (strict_eq_str (VStr "get_article_pdf") "search_advanced") with false.
  change (strict_eq_str (VStr "get_article_pdf") "get_article_metadata") with false.
  change (strict_eq_str (VStr "get_article_pdf") "get_article_pdf") with true.
  cbv iota zeta. rewrite !(params_field _ _ _ Hm) by discriminate. reflexivity.
Qed.

(** The repacking of the arguments of an advanced search changes nothing
    that the search reads. *)
Lemma dispatch_search_advanced (args : JsVal) (log : RequestLog) :
  get_field args "method" = VStr "search_advanced" ->
  dispatch upstream JSON_stringify args log =
  (results <- searchAdvanced upstream args ;;
   ret (text_response JSON_stringify (records_to_js results))) log.
Proof.
  intros Hm. destruct (method_is_object _ _ Hm) as (Hn & Hr & Hf).
  unfold dispatch. rewrite Hn, Hm.
  change (strict_eq_str (VStr "search_advanced") "search_keywords") with false.
  change (strict_eq_str (VStr "search_advanced") "search_advanced") with true.
  cbv iota zeta. rewrite (params_field _ _ _ Hm) by discriminate.
  rewrite Hr. cbn [rest_without]. unfold bind.
  rewrite (searchAdvanced_ext upstream _ args log); try reflexivity;
    try exact Hn.
  1-6: cbn [get_field]; rewrite !Hf;
    rewrite advancedParams_field by discriminate; reflexivity.
  cbn [get_field]. rewrite !Hf.
  change (assoc "num_results"
            (("method", VStr "search_advanced")
               :: ("num_results",
                   default_to (VNum 10) (assoc "num_results" (own_fields args)))
               :: without "num_results" (without "method" (own_fields args))))
    with (default_to (VNum 10) (assoc "num_results" (own_fields args))).
  apply or_else_default.
Qed.

Lemma searchAdvanced_no_filters (params : JsVal) (log : RequestLog) :
  nullish params = false ->
  truthy (get_field params "term") = false ->
  truthy (get_field params "title") = false ->
  truthy (get_field params "author") = false ->
  truthy (get_field params "journal") = false ->
  truthy (get_field params "start_date") = false ->
  truthy (get_field params "end_date") = false ->
  searchAdvanced upstream params log
  = (Throw (Error "At least one search parameter is required"), log).
Proof.
  intros Hn H1 H2 H3 H4 H5 H6.
  unfold searchAdvanced, searchAdvanced_query. rewrite Hn.
  rewrite no_terms_without_filters by assumption. reflexivity.
Qed.

Lemma dispatch_no_filters (args : JsVal) (log : RequestLog) :
  get_field args "method" = VStr "search_advanced" ->
  truthy (get_field args "term") = false ->
  truthy (get_field args "title") = false ->
  truthy (get_field args "author") = false ->
  truthy (get_field args "journal") = false ->
  truthy (get_field args "start_date") = false ->
  truthy (get_field args "end_date") = false ->
  dispatch upstream JSON_stringify args log =
  (Throw (Error "At least one search parameter is required"), log).
Proof.
  intros Hm H1 H2 H3 H4 H5 H6.
  destruct (method_is_object _ _ Hm) as (Hn & _ & _).
  rewrite dispatch_search_advanced by exact Hm. unfold bind.
  now rewrite searchAdvanced_no_filters.
Qed.

Lemma dispatch_keywords_falsy (args : JsVal) (log : RequestLog) :
  get_field args "method" = VStr "search_keywords" ->
  truthy (get_field args "keywords") = false ->
  dispatch upstream JSON_stringify args log =
  (Throw (Error "keywords parameter is required for search_keywords"), log).
Proof.
  intros Hm Hk. rewrite dispatch_search_keywords by exact Hm.
  now rewrite Hk.
Qed.

Lemma dispatch_metadata_pmid_falsy (args : JsVal) (log : RequestLog) :
  get_field args "method" = VStr "get_article_metadata" ->
  truthy (get_field args "pmid") = false ->
  dispatch upstream JSON_stringify args log =
  (Throw (Error "pmid parameter is required for get_article_metadata"), log).
Proof.
  intros Hm Hk. rewrite dispatch_get_article_metadata by exact Hm.
  now rewrite Hk.
Qed.

Lemma dispatch_pdf_pmid_falsy (args : JsVal) (log : RequestLog) :
  get_field args "method" = VStr "get_article_pdf" ->
  truthy (get_field args "pmid") = false ->
  dispatch upstream JSON_stringify args log =
  (Throw (Error "pmid parameter is required for get_article_pdf"), log).
Proof.
  intros Hm Hk. rewrite dispatch_get_article_pdf by exact Hm.
  now rewrite Hk.
Qed.

End DispatcherFacts.

(** * The claims about the Dispatcher *)

(** C1. Every invocation of the [pubmed_articles] tool completes with a
    response, whatever the argument value and the upstream: the handler
    never throws.  Whenever the method dispatch or the Gateway throws, the
    response is one text block with the payload [{ "error": message }],
    [message] being the message of the thrown error.  This covers an
    argument that is [null] or [undefined] (the message is the engine's),
    an unknown [method] (message [Unknown method: ...] when the value
    converts to a string, the engine's message when it does not), a
    missing required field and an advanced search without filters. *)
Theorem dispatcher_always_responds :
  forall (upstream : RequestLog -> string -> option JsVal)
         (JSON_stringify : JsVal -> string)
         (foreign_message : Fault -> string)
         (args : JsVal) (log : RequestLog),
    (exists resp log',
        CallTool upstream JSON_stringify foreign_message "pubmed_articles" args log
        = (Ok resp, log'))
    /\ (forall e log',
           dispatch upstream JSON_stringify args log = (Throw e, log') ->
           CallTool upstream JSON_stringify foreign_message "pubmed_articles" args log
           = (Ok {| content :=
                      [ {| type := "text";
                           text := JSON_stringify
                                     (VObj [("error",
                                             VStr (message_of foreign_message e))]) |} ] |},
              log'))
    /\ (nullish args = true ->
        CallTool upstream JSON_stringify foreign_message "pubmed_articles" args log
        = (Ok (error_envelope JSON_stringify (foreign_message NullishAccess)), log))
    /\ (nullish args = false ->
        strict_eq_str (get_field args "method") "search_keywords" = false ->
        strict_eq_str (get_field args "method") "search_advanced" = false ->
        strict_eq_str (get_field args "method") "get_article_metadata" = false ->
        strict_eq_str (get_field args "method") "get_article_pdf" = false ->
        (forall m,
            ToString (get_field args "method") = Ok m ->
            CallTool upstream JSON_stringify foreign_message "pubmed_articles" args log
            = (Ok (error_envelope JSON_stringify ("Unknown method: " ++ m)), log))
        /\ (convertible (get_field args "method") = false ->
            CallTool upstream JSON_stringify foreign_message "pubmed_articles" args log
            = (Ok (error_envelope JSON_stringify (foreign_message NotPrimitive)),
               log)))
    /\ (get_field args "method" = VStr "search_keywords" ->
        get_field args "keywords" = VUndef ->
        CallTool upstream JSON_stringify foreign_message "pubmed_articles" args log
        = (Ok (error_envelope JSON_stringify
                 "keywords parameter is required for search_keywords"), log))
    /\ (get_field args "method" = VStr "get_article_metadata" ->
        get_field args "pmid" = VUndef ->
        CallTool upstream JSON_stringify foreign_message "pubmed_articles" args log
        = (Ok (error_envelope JSON_stringify
                 "pmid parameter is required for get_article_metadata"), log))
    /\ (get_field args "method" = VStr "get_article_pdf" ->
        get_field args "pmid" = VUndef ->
        CallTool upstream JSON_stringify foreign_message "pubmed_articles" args log
        = (Ok (error_envelope JSON_stringify
                 "pmid parameter is required for get_article_pdf"), log))
    /\ (get_field args "method" = VStr "search_advanced" ->
        truthy (get_field args "term") = false ->
        truthy (get_field args "title") = false ->
        truthy (get_field args "author") = false ->
        truthy (get_field args "journal") = false ->
        truthy (get_field args "start_date") = false ->
        truthy (get_field args "end_date") = false ->
        CallTool upstream JSON_stringify foreign_message "pubmed_articles" args log
        = (Ok (error_envelope JSON_stringify
                 "At least one search parameter is required"), log)).
Proof.
  intros upstream JSON_stringify foreign_message args log.
  pose proof (CallTool_outcome upstream JSON_stringify foreign_message args log)
    as Hout.
  split; [|split; [|split; [|split; [|split; [|split; [|split]]]]]].
  - destruct (dispatch upstream JSON_stringify args log) as [[resp|e] log'];
      eauto.
  - intros e log' He. rewrite Hout, He. reflexivity.
  - intros Hn. rewrite Hout, dispatch_nullish by exact Hn. reflexivity.
  - intros H0 H1 H2 H3 H4. split.
    + intros m Hm. rewrite Hout.
      rewrite dispatch_unknown_method by assumption. rewrite Hm. reflexivity.
    + intros Hc. rewrite Hout.
      rewrite dispatch_unknown_method by assumption.
      rewrite (ToString_not_convertible _ Hc). reflexivity.
  - intros Hm Hk. rewrite Hout.
    rewrite dispatch_keywords_falsy by (try rewrite Hk; auto). reflexivity.
  - intros Hm Hk. rewrite Hout.
    rewrite dispatch_metadata_pmid_falsy by (try rewrite Hk; auto). reflexivity.
  - intros Hm Hk. rewrite Hout.
    rewrite dispatch_pdf_pmid_falsy by (try rewrite Hk; auto). reflexivity.
  - intros Hm H1 H2 H3 H4 H5 H6. rewrite Hout.
    rewrite dispatch_no_filters by assumption. reflexivity.
Qed.

Lemma dispatcher_always_responds_witness :
  CallTool failing_upstream sample_stringify sample_wording "pubmed_articles"
    (VObj [("method", VStr "delete_article"); ("pmid", VNum 7)]) []
  = (Ok (error_envelope sample_stringify "Unknown method: delete_article"), [])
  /\ CallTool failing_upstream sample_stringify sample_wording "pubmed_articles"
       (VObj [("method", VObj [("toString", VNum 1)])]) []
     = (Ok (error_envelope sample_stringify (sample_wording NotPrimitive)), []).
Proof.
  split.
  - refine (proj1 (proj1 (proj2 (proj2 (proj2
              (dispatcher_always_responds failing_upstream sample_stringify
                 sample_wording
                 (VObj [("method", VStr "delete_article"); ("pmid", VNum 7)])
                 []))))
              eq_refl eq_refl eq_refl eq_refl eq_refl) "delete_article" eq_refl).
  - refine (proj2 (proj1 (proj2 (proj2 (proj2
              (dispatcher_always_responds failing_upstream sample_stringify
                 sample_wording
                 (VObj [("method", VObj [("toString", VNum 1)])])
                 []))))
              eq_refl eq_refl eq_refl eq_refl eq_refl) eq_refl).
Defined.

(** C3. An advanced search in which none of [term], [title], [author],
    [journal], [start_date], [end_date] is set fails with the error
    [At least one search parameter is required]: the Gateway throws it
    before any request, and the Dispatcher returns it in the error
    envelope with the request log unchanged. *)
Theorem advanced_search_without_filters_fails :
  forall (upstream : RequestLog -> string -> option JsVal)
         (JSON_stringify : JsVal -> string)
         (foreign_message : Fault -> string)
         (args : JsVal) (log : RequestLog),
    get_field args "method" = VStr "search_advanced" ->
    get_field args "term" = VUndef ->
    get_field args "title" = VUndef ->
    get_field args "author" = VUndef ->
    get_field args "journal" = VUndef ->
    get_field args "start_date" = VUndef ->
    get_field args "end_date" = VUndef ->
    searchAdvanced upstream args log
    = (Throw (Error "At least one search parameter is required"), log)
    /\ CallTool upstream JSON_stringify foreign_message "pubmed_articles" args log
       = (Ok (error_envelope JSON_stringify
                "At least one search parameter is required"), log).
Proof.
  intros upstream JSON_stringify foreign_message args log Hm H1 H2 H3 H4 H5 H6.
  destruct (method_is_object _ _ Hm) as (Hn & _ & _). split.
  - apply searchAdvanced_no_filters;
      [exact Hn | | | | | | ];
      match goal with |- truthy ?v = false =>
        replace v with VUndef by (symmetry; assumption); reflexivity end.
  - rewrite CallTool_outcome.
    rewrite dispatch_no_filters;
      [reflexivity | assumption | | | | | | ];
      match goal with |- truthy ?v = false =>
        replace v with VUndef by (symmetry; assumption); reflexivity end.
Qed.

Lemma advanced_search_without_filters_fails_witness :
  CallTool (fixed_upstream [VStr "1"] sample_doc) sample_stringify sample_wording
    "pubmed_articles"
    (VObj [("method", VStr "search_advanced"); ("num_results", VNum 5)]) []
  = (Ok (error_envelope sample_stringify
           "At least one search parameter is required"), []).
Proof.
  refine (proj2 (advanced_search_without_filters_fails
                   (fixed_upstream [VStr "1"] sample_doc) sample_stringify
                   sample_wording
                   (VObj [("method", VStr "search_advanced");
                          ("num_results", VNum 5)])
                   [] eq_refl eq_refl eq_refl eq_refl eq_refl eq_refl eq_refl)).
Defined.

(** C10. The presence checks of the Dispatcher test truthiness: [keywords]
    equal to the empty string fails [search_keywords], and [pmid] equal to
    the empty string or to the integer 0 fails [get_article_metadata] and
    [get_article_pdf], each with the error of the missing field in the
    error envelope and with the request log unchanged. *)
Theorem falsy_required_field_is_rejected :
  forall (upstream : RequestLog -> string -> option JsVal)
         (JSON_stringify : JsVal -> string)
         (foreign_message : Fault -> string)
         (args : JsVal) (log : RequestLog),
    (get_field args "method" = VStr "search_keywords" ->
     get_field args "keywords" = VStr "" ->
     CallTool upstream JSON_stringify foreign_message "pubmed_articles" args log
     = (Ok (error_envelope JSON_stringify
              "keywords parameter is required for search_keywords"), log))
    /\ (get_field args "method" = VStr "get_article_metadata" ->
        get_field args "pmid" = VStr "" \/ get_field args "pmid" = VNum 0 ->
        CallTool upstream JSON_stringify foreign_message "pubmed_articles" args log
        = (Ok (error_envelope JSON_stringify
                 "pmid parameter is required for get_article_metadata"), log))
    /\ (get_field args "method" = VStr "get_article_pdf" ->
        get_field args "pmid" = VStr "" \/ get_field args "pmid" = VNum 0 ->
        CallTool upstream JSON_stringify foreign_message "pubmed_articles" args log
        = (Ok (error_envelope JSON_stringify
                 "pmid parameter is required for get_article_pdf"), log)).
Proof.
  intros upstream JSON_stringify foreign_message args log. repeat split.
  - intros Hm Hk. rewrite CallTool_outcome.
    rewrite dispatch_keywords_falsy by (try rewrite Hk; auto). reflexivity.
  - intros Hm Hk. rewrite CallTool_outcome.
    rewrite dispatch_metadata_pmid_falsy;
      [reflexivity | assumption | destruct Hk as [-> | ->]; reflexivity].
  - intros Hm Hk. rewrite CallTool_outcome.
    rewrite dispatch_pdf_pmid_falsy;
      [reflexivity | assumption | destruct Hk as [-> | ->]; reflexivity].
Qed.

Lemma falsy_required_field_is_rejected_witness :
  CallTool (fixed_upstream [VStr "1"] sample_doc) sample_stringify sample_wording
    "pubmed_articles"
    (VObj [("method", VStr "get_article_metadata"); ("pmid", VNum 0)]) []
  = (Ok (error_envelope sample_stringify
           "pmid parameter is required for get_article_metadata"), []).
Proof.
  refine (proj1 (proj2 (falsy_required_field_is_rejected
                   (fixed_upstream [VStr "1"] sample_doc) sample_stringify
                   sample_wording
                   (VObj [("method", VStr "get_article_metadata");
                          ("pmid", VNum 0)])
                   [])) eq_refl (or_intror eq_refl)).
Defined.

(** * The single-article functions *)

Section ArticleFacts.

Variable upstream : RequestLog -> string -> option JsVal.

Lemma convertible_pmid_string (p : JsVal) :
  is_string p = true \/ (exists n, p = VNumber n) ->
  convertible (pmid_string p) = true.
Proof.
  intros [H | [n ->]]; [destruct p; try discriminate H|]; reflexivity.
Qed.

Lemma getArticleMetadata_run (p : JsVal) (log : RequestLog) :
  convertible (pmid_string p) = true ->
  getArticleMetadata upstream p log =
  (Ok (fetched upstream (pmid_string p) log),
   log ++ [fetch_url (pmid_string p)]).
Proof.
  intros Hc. unfold getArticleMetadata, bind, lift, console_print, ret.
  rewrite (ToString_convertible _ Hc). now apply getPubMedMetadata_run.
Qed.

Lemma getArticleMetadata_throws (p : JsVal) (log : RequestLog) :
  convertible (pmid_string p) = false ->
  getArticleMetadata upstream p log = (Throw (Foreign NotPrimitive), log).
Proof.
  intros Hc. unfold getArticleMetadata, bind, lift.
  now rewrite (ToString_not_convertible _ Hc).
Qed.

Lemma downloadFullTextPdf_run (p : JsVal) (log : RequestLog) :
  convertible (pmid_string p) = true ->
  downloadFullTextPdf upstream p log =
  if truthy (metadata_pmcid (fetched upstream (pmid_string p) log))
  then
    match ToString (metadata_pmcid (fetched upstream (pmid_string p) log)) with
    | Ok c =>
        (Ok (VObj
               [ ("pdf_url",
                  VStr ("https://www.ncbi.nlm.nih.gov/pmc/articles/" ++ c ++ "/pdf/"));
                 ("message", VStr ("PDF may be available at PMC: " ++ c)) ]),
         log ++ [fetch_url (pmid_string p)])
    | Throw e => (Throw e, log ++ [fetch_url (pmid_string p)])
    end
  else
    (Ok (VObj
           [ ("message",
              VStr ("PDF not directly available for PMID "
                      ++ render (pmid_string p) ++ ". Check publisher website.")) ]),
     log ++ [fetch_url (pmid_string p)]).
Proof.
  intros Hc. unfold downloadFullTextPdf, bind, lift, console_print, ret.
  rewrite (ToString_convertible _ Hc), (getPubMedMetadata_run _ _ _ Hc).
  destruct (truthy (metadata_pmcid (fetched upstream (pmid_string p) log)));
    [|reflexivity].
  destruct (ToString (metadata_pmcid (fetched upstream (pmid_string p) log)));
    reflexivity.
Qed.

Lemma downloadFullTextPdf_throws (p : JsVal) (log : RequestLog) :
  convertible (pmid_string p) = false ->
  downloadFullTextPdf upstream p log = (Throw (Foreign NotPrimitive), log).
Proof.
  intros Hc. unfold downloadFullTextPdf, bind, lift.
  now rewrite (ToString_not_convertible _ Hc).
Qed.

(** Whatever the single-article functions do, they issue at most the one
    fetch, and only for an identifier that converts. *)
Lemma downloadFullTextPdf_log (p : JsVal) (log : RequestLog) :
  snd (downloadFullTextPdf upstream p log)
  = if convertible (pmid_string p)
    then log ++ [fetch_url (pmid_string p)] else log.
Proof.
  destruct (convertible (pmid_string p)) eqn:Hc.
  - rewrite (downloadFullTextPdf_run _ _ Hc).
    destruct (truthy _); [|reflexivity]. destruct (ToString _); reflexivity.
  - now rewrite (downloadFullTextPdf_throws _ _ Hc).
Qed.

End ArticleFacts.

(** * The claims about the Gateway *)

(** C2, as the code has it.  A keyword search, and an advanced search, that
    return have issued one search request and then one fetch per
    identifier, in the order of the identifiers the search call returned,
    and return the records of these fetches in that order, the identifiers
    without a parsable record left out.  The list is therefore no longer
    than the list of identifiers, and no longer than any bound that the
    list of identifiers respects; the code itself does not cut the list to
    [num_results].  A search returns whenever its search URL can be built
    and every identifier of the search call converts to a string. *)
Theorem search_returns_fetched_records :
  forall (upstream : RequestLog -> string -> option JsVal) (log : RequestLog),
    (forall kw numResults articles log',
        searchKeywords upstream kw numResults log = (Ok articles, log') ->
        exists url ids,
          generatePubMedSearchUrl kw numResults = Ok url
          /\ searchPubMed upstream url log = (Ok ids, log ++ [url])
          /\ articles = fetched_records upstream ids (log ++ [url])
          /\ log' = (log ++ [url]) ++ map fetch_url ids
          /\ length articles <= length ids
          /\ (forall n, length ids <= n -> length articles <= n))
    /\ (forall kw numResults url,
           generatePubMedSearchUrl kw numResults = Ok url ->
           exists ids,
             searchPubMed upstream url log = (Ok ids, log ++ [url])
             /\ (Forall (fun id => convertible id = true) ids ->
                 searchKeywords upstream kw numResults log
                 = (Ok (fetched_records upstream ids (log ++ [url])),
                    (log ++ [url]) ++ map fetch_url ids)))
    /\ (forall params articles log',
           searchAdvanced upstream params log = (Ok articles, log') ->
           exists q url ids,
             searchAdvanced_query params = Ok q
             /\ generatePubMedSearchUrl (VStr q)
                  (or_else (get_field params "num_results") (VNum 10)) = Ok url
             /\ searchPubMed upstream url log = (Ok ids, log ++ [url])
             /\ articles = fetched_records upstream ids (log ++ [url])
             /\ log' = (log ++ [url]) ++ map fetch_url ids
             /\ length articles <= length ids
             /\ (forall n, length ids <= n -> length articles <= n))
    /\ (forall params q url,
           nullish params = false ->
           searchAdvanced_query params = Ok q ->
           q <> "" ->
           generatePubMedSearchUrl (VStr q)
             (or_else (get_field params "num_results") (VNum 10)) = Ok url ->
           exists ids,
             searchPubMed upstream url log = (Ok ids, log ++ [url])
             /\ (Forall (fun id => convertible id = true) ids ->
                 searchAdvanced upstream params log
                 = (Ok (fetched_records upstream ids (log ++ [url])),
                    (log ++ [url]) ++ map fetch_url ids))).
Proof.
  intros upstream log. split; [|split; [|split]].
  - intros kw numResults articles log' H.
    destruct (searchKeywords_Ok upstream _ _ _ _ _ H) as (url & ids & Hu & Hs & Hf).
    pose proof (fetch_each_Ok upstream _ _ _ _ _ Hf) as Hc.
    rewrite (fetch_each_run upstream _ Hc) in Hf. simpl in Hf.
    inversion Hf; subst. exists url, ids.
    split; [exact Hu|]. split; [exact Hs|]. split; [reflexivity|].
    split; [reflexivity|]. split; [apply fetched_records_length|].
    intros n Hn. eapply Nat.le_trans; [apply fetched_records_length | exact Hn].
  - intros kw numResults url Hu.
    destruct (searchPubMed_returns upstream url log) as [ids Hs].
    exists ids. split; [exact Hs|]. intros Hc.
    exact (searchKeywords_run upstream _ _ _ _ _ Hu Hs Hc).
  - intros params articles log' H.
    destruct (searchAdvanced_Ok upstream _ _ _ _ H)
      as (q & url & ids & Hn & Hq & Hne & Hu & Hs & Hf).
    pose proof (fetch_each_Ok upstream _ _ _ _ _ Hf) as Hc.
    rewrite (fetch_each_run upstream _ Hc) in Hf. simpl in Hf.
    inversion Hf; subst. exists q, url, ids.
    split; [exact Hq|]. split; [exact Hu|]. split; [exact Hs|].
    split; [reflexivity|]. split; [reflexivity|].
    split; [apply fetched_records_length|].
    intros n Hn'. eapply Nat.le_trans; [apply fetched_records_length | exact Hn'].
  - intros params q url Hn Hq Hne Hu.
    destruct (searchPubMed_returns upstream url log) as [ids Hs].
    exists ids. split; [exact Hs|]. intros Hc.
    exact (searchAdvanced_run upstream _ _ _ _ _ Hn Hq Hne Hu Hs Hc).
Qed.

Lemma search_returns_fetched_records_witness :
  exists url ids,
    generatePubMedSearchUrl (VStr "asthma") (VNum 5) = Ok url
    /\ searchPubMed (fixed_upstream [VStr "31452104"] sample_doc) url []
       = (Ok ids, [] ++ [url])
    /\ [sample_record]
       = fetched_records (fixed_upstream [VStr "31452104"] sample_doc) ids
           ([] ++ [url])
    /\ ["https://eutils.ncbi.nlm.nih.gov/entrez/eutils/esearch.fcgi?db=pubmed&term=asthma&retmax=5&retmode=xml";
        "https://eutils.ncbi.nlm.nih.gov/entrez/eutils/efetch.fcgi?db=pubmed&id=31452104&retmode=xml"]
       = ([] ++ [url]) ++ map fetch_url ids
    /\ length [sample_record] <= length ids
    /\ (forall n, length ids <= n -> length [sample_record] <= n).
Proof.
  exact (proj1 (search_returns_fetched_records
                  (fixed_upstream [VStr "31452104"] sample_doc) [])
           (VStr "asthma") (VNum 5) [sample_record]
           ["https://eutils.ncbi.nlm.nih.gov/entrez/eutils/esearch.fcgi?db=pubmed&term=asthma&retmax=5&retmode=xml";
            "https://eutils.ncbi.nlm.nih.gov/entrez/eutils/efetch.fcgi?db=pubmed&id=31452104&retmode=xml"]
           eq_refl).
Defined.

(** C2 as stated fails: the upstream answers a search for at most one
    result with two identifiers, both fetches succeed, and the list
    returned has two records. *)
Lemma search_may_exceed_num_results :
  searchKeywords (fixed_upstream [VStr "1"; VStr "2"] sample_doc)
    (VStr "gene editing") (VNum 1) []
  = (Ok (fetched_records (fixed_upstream [VStr "1"; VStr "2"] sample_doc)
           [VStr "1"; VStr "2"]
           ["https://eutils.ncbi.nlm.nih.gov/entrez/eutils/esearch.fcgi?db=pubmed&term=gene%20editing&retmax=1&retmode=xml"]),
     ["https://eutils.ncbi.nlm.nih.gov/entrez/eutils/esearch.fcgi?db=pubmed&term=gene%20editing&retmax=1&retmode=xml";
      "https://eutils.ncbi.nlm.nih.gov/entrez/eutils/efetch.fcgi?db=pubmed&id=1&retmode=xml";
      "https://eutils.ncbi.nlm.nih.gov/entrez/eutils/efetch.fcgi?db=pubmed&id=2&retmode=xml"])
  /\ ~ (forall articles log',
           searchKeywords (fixed_upstream [VStr "1"; VStr "2"] sample_doc)
             (VStr "gene editing") (VNum 1) []
           = (Ok articles, log') ->
           (Z.of_nat (length articles) <= 1)%Z).
Proof.
  split; [reflexivity|].
  intros H.
  specialize (H _ _ eq_refl). vm_compute in H. apply H. reflexivity.
Qed.

(** C5. [get_article_pdf] fetches the record once.  When the record has a
    [pmcid] that is a string and not empty, the result is the object with
    the keys [pdf_url] and [message], [pdf_url] being
    [https://www.ncbi.nlm.nih.gov/pmc/articles/{pmcid}/pdf/]; when the
    identifier converts to a string and the record has an empty [pmcid],
    or there is no record, the result is an object whose only key is
    [message].  The Dispatcher returns the result as the payload of its
    response, and the error envelope when the function throws. *)
Theorem pdf_resolution :
  forall (upstream : RequestLog -> string -> option JsVal)
         (p : JsVal) (log : RequestLog),
    (forall r c,
        fetched upstream (pmid_string p) log = Some r ->
        pmcid r = VStr c -> c <> "" ->
        exists s,
          ToString (pmid_string p) = Ok s
          /\ downloadFullTextPdf upstream p log
             = (Ok (VObj
                      [("pdf_url",
                        VStr ("https://www.ncbi.nlm.nih.gov/pmc/articles/"
                                ++ c ++ "/pdf/"));
                       ("message", VStr ("PDF may be available at PMC: " ++ c))]),
                log ++ [efetch_url s]))
    /\ (forall s,
           ToString (pmid_string p) = Ok s ->
           (fetched upstream (pmid_string p) log = None
            \/ exists r, fetched upstream (pmid_string p) log = Some r
                         /\ pmcid r = VStr "") ->
           downloadFullTextPdf upstream p log
           = (Ok (VObj
                    [("message",
                      VStr ("PDF not directly available for PMID "
                              ++ s ++ ". Check publisher website."))]),
              log ++ [efetch_url s]))
    /\ (forall (JSON_stringify : JsVal -> string)
               (foreign_message : Fault -> string) (args : JsVal),
           get_field args "method" = VStr "get_article_pdf" ->
           get_field args "pmid" = p ->
           truthy p = true ->
           CallTool upstream JSON_stringify foreign_message "pubmed_articles"
             args log
           = match downloadFullTextPdf upstream p log with
             | (Ok result, log') =>
                 (Ok {| content :=
                          [ {| type := "text";
                               text := JSON_stringify result |} ] |}, log')
             | (Throw e, log') =>
                 (Ok (error_envelope JSON_stringify
                        (message_of foreign_message e)), log')
             end).
Proof.
  intros upstream p log. split; [|split].
  - intros r c Hf Hc Hne.
    destruct (fetched_pmid upstream _ _ _ Hf) as (_ & Hs & _).
    destruct (ToString_Ok _ _ Hs) as [Hconv _].
    exists (render (pmid_string p)). split; [exact Hs|].
    rewrite (downloadFullTextPdf_run upstream _ _ Hconv), Hf. simpl.
    rewrite Hc. destruct c; [contradiction | reflexivity].
  - intros s Hs H. destruct (ToString_Ok _ _ Hs) as [Hconv ->].
    rewrite (downloadFullTextPdf_run upstream _ _ Hconv).
    destruct H as [-> | (r & -> & Hc)]; simpl; [|rewrite Hc]; reflexivity.
  - intros JSON_stringify foreign_message args Hm Hp Ht.
    rewrite CallTool_outcome,
      (dispatch_get_article_pdf upstream JSON_stringify args log Hm).
    rewrite Hp, Ht. change (negb true) with false. cbv iota.
    unfold bind.
    destruct (downloadFullTextPdf upstream p log) as [[result|e] log'];
      reflexivity.
Qed.

Lemma pdf_resolution_witness :
  (exists s,
      ToString (pmid_string (VNum 12345678)) = Ok s
      /\ downloadFullTextPdf (fixed_upstream [] sample_doc) (VNum 12345678) []
         = (Ok (VObj
                  [("pdf_url",
                    VStr ("https://www.ncbi.nlm.nih.gov/pmc/articles/"
                            ++ "PMC1234567" ++ "/pdf/"));
                   ("message",
                    VStr ("PDF may be available at PMC: " ++ "PMC1234567"))]),
            [] ++ [efetch_url s]))
  /\ downloadFullTextPdf failing_upstream (VStr "12345678") []
     = (Ok (VObj
              [("message",
                VStr ("PDF not directly available for PMID "
                        ++ "12345678" ++ ". Check publisher website."))]),
        [] ++ [efetch_url "12345678"]).
Proof.
  split.
  - refine (proj1 (pdf_resolution (fixed_upstream [] sample_doc) (VNum 12345678) [])
              _ "PMC1234567" eq_refl eq_refl _).
    discriminate.
  - refine (proj1 (proj2 (pdf_resolution failing_upstream (VStr "12345678") []))
              "12345678" eq_refl (or_introl eq_refl)).
Defined.

(** C6, as the code has it.  A record carries as [pmid] the very identifier
    its fetch was issued for, and its [url] is
    [https://pubmed.ncbi.nlm.nih.gov/{pmid}/] for that identifier.  In the
    search flows the identifier is one of those the search call returned;
    in the single-article flow, which the Dispatcher enters only with a
    truthy [pmid], a string or integer [pmid] gives a record whose [pmid]
    is a string that is not empty. *)
Theorem record_identifier_and_url :
  forall (upstream : RequestLog -> string -> option JsVal) (log : RequestLog),
    (forall p r log',
        getPubMedMetadata upstream p log = (Ok (Some r), log') ->
        pmid r = p
        /\ exists s,
            ToString p = Ok s
            /\ url r = ("https://pubmed.ncbi.nlm.nih.gov/" ++ s ++ "/")%string)
    /\ (forall kw numResults articles log' r,
           searchKeywords upstream kw numResults log = (Ok articles, log') ->
           In r articles ->
           (exists s,
               ToString (pmid r) = Ok s
               /\ url r = ("https://pubmed.ncbi.nlm.nih.gov/" ++ s ++ "/")%string)
           /\ exists searchUrl ids,
               generatePubMedSearchUrl kw numResults = Ok searchUrl
               /\ searchPubMed upstream searchUrl log
                  = (Ok ids, log ++ [searchUrl])
               /\ In (pmid r) ids)
    /\ (forall params articles log' r,
           searchAdvanced upstream params log = (Ok articles, log') ->
           In r articles ->
           (exists s,
               ToString (pmid r) = Ok s
               /\ url r = ("https://pubmed.ncbi.nlm.nih.gov/" ++ s ++ "/")%string)
           /\ exists q searchUrl ids,
               searchAdvanced_query params = Ok q
               /\ generatePubMedSearchUrl (VStr q)
                    (or_else (get_field params "num_results") (VNum 10))
                  = Ok searchUrl
               /\ searchPubMed upstream searchUrl log
                  = (Ok ids, log ++ [searchUrl])
               /\ In (pmid r) ids)
    /\ (forall p r log',
           truthy p = true ->
           (is_string p = true \/ exists n, p = VNumber n) ->
           getArticleMetadata upstream p log = (Ok (Some r), log') ->
           exists s,
             s <> "" /\ pmid r = VStr s
             /\ url r = ("https://pubmed.ncbi.nlm.nih.gov/" ++ s ++ "/")%string).
Proof.
  intros upstream log. split; [|split; [|split]].
  - intros p r log' H.
    destruct (convertible p) eqn:Hc;
      [|rewrite (getPubMedMetadata_throws upstream _ _ Hc) in H; discriminate H].
    rewrite (getPubMedMetadata_run upstream _ _ Hc) in H. inversion H as [[Hf Hl]].
    destruct (fetched_pmid upstream _ _ _ Hf) as (Hp & Hs & Hu).
    split; [exact Hp|]. exists (render p). split; [exact Hs | exact Hu].
  - intros kw numResults articles log' r H Hin.
    destruct (searchKeywords_Ok upstream _ _ _ _ _ H) as (url & ids & Hu & Hs & Hf).
    pose proof (fetch_each_Ok upstream _ _ _ _ _ Hf) as Hc.
    rewrite (fetch_each_run upstream _ Hc) in Hf. simpl in Hf.
    inversion Hf; subst.
    destruct (fetched_records_from_ids upstream _ _ _ Hin)
      as (id & Hid & Hp & Hts & Hur).
    split.
    + exists (render id). rewrite Hp. split; [exact Hts | exact Hur].
    + exists url, ids. rewrite Hp. repeat split; assumption.
  - intros params articles log' r H Hin.
    destruct (searchAdvanced_Ok upstream _ _ _ _ H)
      as (q & url & ids & Hn & Hq & Hne & Hu & Hs & Hf).
    pose proof (fetch_each_Ok upstream _ _ _ _ _ Hf) as Hc.
    rewrite (fetch_each_run upstream _ Hc) in Hf. simpl in Hf.
    inversion Hf; subst.
    destruct (fetched_records_from_ids upstream _ _ _ Hin)
      as (id & Hid & Hp & Hts & Hur).
    split.
    + exists (render id). rewrite Hp. split; [exact Hts | exact Hur].
    + exists q, url, ids. rewrite Hp. repeat split; assumption.
  - intros p r log' Ht Hty Hg.
    rewrite (getArticleMetadata_run upstream _ _ (convertible_pmid_string _ Hty))
      in Hg.
    inversion Hg as [[Hf Hl]].
    destruct (fetched_pmid upstream _ _ _ Hf) as (Hp & _ & Hu).
    destruct Hty as [Hs | [n ->]].
    + destruct p as [| | | |s| | |]; try discriminate Hs.
      exists s. simpl in Hp, Hu. repeat split; try assumption.
      intros ->. discriminate Ht.
    + exists (Number_toString n). simpl in Hp, Hu.
      repeat split; try assumption. apply Number_toString_nonempty.
Qed.

Lemma record_identifier_and_url_witness :
  exists s,
    s <> "" /\ pmid sample_record = VStr s
    /\ url sample_record = ("https://pubmed.ncbi.nlm.nih.gov/" ++ s ++ "/")%string.
Proof.
  refine (proj2 (proj2 (proj2 (record_identifier_and_url
                                 (fixed_upstream [] sample_doc) [])))
            (VNum 31452104) sample_record
            ["https://eutils.ncbi.nlm.nih.gov/entrez/eutils/efetch.fcgi?db=pubmed&id=31452104&retmode=xml"]
            eq_refl (or_intror (ex_intro _ (safe 31452104) eq_refl)) eq_refl).
Defined.

(** C6 as stated fails: the search call returns an empty identifier, the
    fetch issued for it yields a parsable record, and the record returned
    has the empty string as [pmid]. *)
Lemma search_record_with_empty_pmid :
  ~ (forall articles log' r,
        searchKeywords (fixed_upstream [VStr ""] sample_doc)
          (VStr "gene editing") (VNum 10) []
        = (Ok articles, log') ->
        In r articles ->
        pmid r <> VStr "").
Proof.
  intros H.
  refine (H _ _ (mkArticle (VStr "") (VStr "Gene editing")
                   ["Doe, Jane"; "Smith,"] (VStr "Nature Medicine")
                   "2024-Mar-15" "Background. Results."
                   (VStr "10.1038/s41591") (VStr "PMC1234567")
                   [VStr "CRISPR"] [VStr "Humans"]
                   "https://pubmed.ncbi.nlm.nih.gov//") eq_refl _ eq_refl).
  left. reflexivity.
Qed.

(** C9, as the code has it.  Every integer [n] a number can hold exactly
    has a decimal numeral, and for its decimal numeral [s] the two Gateway
    functions normalise the integer to [s] before any use, so the integer
    and the string form issue the same request, the fetch of [s], and give
    the same result; through the Dispatcher the same holds when [n] is not
    0 (the presence check runs before the normalisation and rejects 0). *)
Theorem integer_and_string_pmid_agree :
  forall (upstream : RequestLog -> string -> option JsVal)
         (JSON_stringify : JsVal -> string)
         (foreign_message : Fault -> string)
         (n : SafeInt) (log : RequestLog),
    (exists s, decimal_numeral s (int_value n))
    /\ (forall s,
        decimal_numeral s (int_value n) ->
        pmid_string (VNumber n) = VStr s
        /\ getArticleMetadata upstream (VNumber n) log
           = getArticleMetadata upstream (VStr s) log
        /\ downloadFullTextPdf upstream (VNumber n) log
           = downloadFullTextPdf upstream (VStr s) log
        /\ getArticleMetadata upstream (VNumber n) log
           = (Ok (fetched upstream (VStr s) log), log ++ [efetch_url s])
        /\ snd (downloadFullTextPdf upstream (VNumber n) log)
           = log ++ [efetch_url s]
        /\ (int_value n <> 0%Z ->
            forall extra,
              CallTool upstream JSON_stringify foreign_message "pubmed_articles"
                (VObj (("method", VStr "get_article_metadata")
                         :: ("pmid", VNumber n) :: extra)) log
              = CallTool upstream JSON_stringify foreign_message "pubmed_articles"
                  (VObj (("method", VStr "get_article_metadata")
                           :: ("pmid", VStr s) :: extra)) log
              /\ CallTool upstream JSON_stringify foreign_message "pubmed_articles"
                   (VObj (("method", VStr "get_article_pdf")
                            :: ("pmid", VNumber n) :: extra)) log
                 = CallTool upstream JSON_stringify foreign_message "pubmed_articles"
                     (VObj (("method", VStr "get_article_pdf")
                              :: ("pmid", VStr s) :: extra)) log)).
Proof.
  intros upstream JSON_stringify foreign_message n log.
  split; [exists (Number_toString n); apply Number_toString_is_numeral|].
  intros s Hs.
  pose proof (Number_toString_numeral n s Hs) as Hn.
  assert (Hp : pmid_string (VNumber n) = VStr s) by (simpl; now rewrite Hn).
  split; [exact Hp|].
  split; [unfold getArticleMetadata; now rewrite Hp|].
  split; [unfold downloadFullTextPdf; now rewrite Hp|].
  split; [rewrite getArticleMetadata_run by reflexivity; now rewrite Hp|].
  split; [rewrite downloadFullTextPdf_log, Hp; reflexivity|].
  intros Hz extra.
  assert (Tn : truthy (VNumber n) = true)
    by (simpl; destruct (Z.eqb_spec (int_value n) 0); [contradiction | reflexivity]).
  assert (Ts : truthy (VStr s) = true)
    by (rewrite <- Hn; apply truthy_Number_toString).
  split; rewrite !CallTool_outcome.
  - rewrite !dispatch_get_article_metadata by reflexivity.
    cbn [get_field assoc String.eqb Ascii.eqb Bool.eqb].
    rewrite Tn, Ts. cbn [negb]. unfold bind, getArticleMetadata.
    now rewrite Hp.
  - rewrite !dispatch_get_article_pdf by reflexivity.
    cbn [get_field assoc String.eqb Ascii.eqb Bool.eqb].
    rewrite Tn, Ts. cbn [negb]. unfold bind, downloadFullTextPdf.
    now rewrite Hp.
Qed.

Lemma integer_and_string_pmid_agree_witness :
  decimal_numeral "12345678" (int_value (safe 12345678))
  /\ getArticleMetadata (fixed_upstream [] sample_doc) (VNum 12345678) []
     = (Ok (fetched (fixed_upstream [] sample_doc) (VStr "12345678") []),
        [] ++ [efetch_url "12345678"])
  /\ CallTool (fixed_upstream [] sample_doc) sample_stringify sample_wording
       "pubmed_articles"
       (VObj (("method", VStr "get_article_metadata")
                :: ("pmid", VNum 12345678) :: [])) []
     = CallTool (fixed_upstream [] sample_doc) sample_stringify sample_wording
         "pubmed_articles"
         (VObj (("method", VStr "get_article_metadata")
                  :: ("pmid", VStr "12345678") :: [])) [].
Proof.
  assert (H : decimal_numeral "12345678" (int_value (safe 12345678))).
  { eexists. split; [reflexivity|]. split; reflexivity. }
  split; [exact H|].
  pose proof (proj2 (integer_and_string_pmid_agree
                       (fixed_upstream [] sample_doc)
                       sample_stringify sample_wording (safe 12345678) [])
                "12345678" H)
    as T.
  split.
  - exact (proj1 (proj2 (proj2 (proj2 T)))).
  - refine (proj1 (proj2 (proj2 (proj2 (proj2 (proj2 T)))) _ [])).
    discriminate.
Defined.

(** C9 as stated fails at the integer 0: the Dispatcher rejects the integer
    form before any request, while the string form ["0"] is fetched. *)
Lemma pmid_zero_forms_differ :
  decimal_numeral "0" 0
  /\ CallTool (fixed_upstream [] sample_doc) sample_stringify sample_wording
       "pubmed_articles"
       (VObj [("method", VStr "get_article_metadata"); ("pmid", VNum 0)]) []
     = (Ok (error_envelope sample_stringify
              "pmid parameter is required for get_article_metadata"), [])
  /\ snd (CallTool (fixed_upstream [] sample_doc) sample_stringify sample_wording
            "pubmed_articles"
            (VObj [("method", VStr "get_article_metadata");
                   ("pmid", VStr "0")]) [])
     = ["https://eutils.ncbi.nlm.nih.gov/entrez/eutils/efetch.fcgi?db=pubmed&id=0&retmode=xml"]
  /\ CallTool (fixed_upstream [] sample_doc) sample_stringify sample_wording
       "pubmed_articles"
       (VObj [("method", VStr "get_article_metadata"); ("pmid", VNum 0)]) []
     <> CallTool (fixed_upstream [] sample_doc) sample_stringify sample_wording
          "pubmed_articles"
          (VObj [("method", VStr "get_article_metadata");
                 ("pmid", VStr "0")]) [].
Proof.
  split; [eexists; split; [reflexivity|]; split; reflexivity|].
  split; [reflexivity|]. split; [reflexivity|].
  vm_compute. discriminate.
Qed.

(** * The claims about the query and the extraction *)

Lemma present_nonempty (v : JsVal) (s : string) : present v = Some s -> s <> "".
Proof.
  destruct v as [| | | |[|c r]| | |]; simpl; intros H; inversion H; discriminate.
Qed.

Lemma term_piece (v : JsVal) :
  string_or_absent v ->
  (if truthy v then [v] else []) = map VStr (option_list (present v)).
Proof.
  destruct v as [| | | |[|c r]| | |]; simpl; intros H; try contradiction;
    reflexivity.
Qed.

Lemma tagged_piece (tag : string) (v : JsVal) :
  string_or_absent v ->
  tagged_term v tag = Ok (map VStr (tagged_clause tag (present v))).
Proof.
  destruct v as [| | | |[|c r]| | |]; simpl; intros H; try contradiction;
    reflexivity.
Qed.

Lemma date_piece (start_date end_date : JsVal) :
  string_or_absent start_date -> string_or_absent end_date ->
  (if truthy start_date && truthy end_date
   then
     s <~ ToString start_date ;;
     e <~ ToString end_date ;;
     Ok [VStr (s ++ ":" ++ e ++ "[Date - Publication]")]
   else if truthy start_date
   then
     s <~ ToString start_date ;;
     Ok [VStr (s ++ ":3000[Date - Publication]")]
   else if truthy end_date
   then
     e <~ ToString end_date ;;
     Ok [VStr ("1800:" ++ e ++ "[Date - Publication]")]
   else Ok [])
  = Ok (map VStr (date_clause (present start_date) (present end_date))).
Proof.
  destruct start_date as [| | | |[|c r]| | |]; simpl; intros Hs;
    try contradiction;
    destruct end_date as [| | | |[|c' r']| | |]; simpl; intros He;
    try contradiction; reflexivity.
Qed.

Lemma searchAdvanced_terms_clauses (params : JsVal) :
  string_or_absent (get_field params "term") ->
  string_or_absent (get_field params "title") ->
  string_or_absent (get_field params "author") ->
  string_or_absent (get_field params "journal") ->
  string_or_absent (get_field params "start_date") ->
  string_or_absent (get_field params "end_date") ->
  searchAdvanced_terms params
  = Ok (map VStr
          (advanced_clauses
             (present (get_field params "term"))
             (present (get_field params "title"))
             (present (get_field params "author"))
             (present (get_field params "journal"))
             (present (get_field params "start_date"))
             (present (get_field params "end_date")))).
Proof.
  intros H1 H2 H3 H4 H5 H6. unfold searchAdvanced_terms, advanced_clauses.
  cbv zeta.
  rewrite (term_piece _ H1), (tagged_piece "[Title]" _ H2),
    (tagged_piece "[Author]" _ H3), (tagged_piece "[Journal]" _ H4),
    (date_piece _ _ H5 H6).
  simpl bindR. now rewrite !map_app.
Qed.

Lemma clauses_nonempty (t ti a j s e : JsVal) :
  (present t <> None \/ present ti <> None \/ present a <> None
   \/ present j <> None \/ present s <> None \/ present e <> None) ->
  String.concat " AND "
    (advanced_clauses (present t) (present ti) (present a) (present j)
       (present s) (present e)) <> "".
Proof.
  intros H. unfold advanced_clauses.
  destruct (present t) as [x1|] eqn:E1;
    [apply concat_nonempty; exact (present_nonempty _ _ E1)|].
  destruct (present ti) as [x2|] eqn:E2;
    [apply concat_nonempty, append_nonempty; exact (present_nonempty _ _ E2)|].
  destruct (present a) as [x3|] eqn:E3;
    [apply concat_nonempty, append_nonempty; exact (present_nonempty _ _ E3)|].
  destruct (present j) as [x4|] eqn:E4;
    [apply concat_nonempty, append_nonempty; exact (present_nonempty _ _ E4)|].
  destruct (present s) as [x5|] eqn:E5;
    [destruct (present e); apply concat_nonempty, append_nonempty;
     exact (present_nonempty _ _ E5)|].
  destruct (present e) as [x6|] eqn:E6;
    [apply concat_nonempty; discriminate|].
  exfalso. intuition congruence.
Qed.

(** C4. When each filter of an advanced search is a string or absent, the
    query string is the clauses of the present filters joined with
    [" AND "] in the order term, title, author, journal, date range: the
    term as it is, [{value}[Title]], [{value}[Author]],
    [{value}[Journal]], and [{start}:{end}[Date - Publication]] with
    [1800] for an absent start and [3000] for an absent end.  With at least
    one filter present the query is not empty and, when the search URL can
    be built from it and from the result count, the first request issued
    is the search for it, followed by the fetches of the identifiers
    found. *)
Theorem advanced_query_composition :
  forall (params : JsVal),
    string_or_absent (get_field params "term") ->
    string_or_absent (get_field params "title") ->
    string_or_absent (get_field params "author") ->
    string_or_absent (get_field params "journal") ->
    string_or_absent (get_field params "start_date") ->
    string_or_absent (get_field params "end_date") ->
    searchAdvanced_query params
    = Ok (String.concat " AND "
            (advanced_clauses
               (present (get_field params "term"))
               (present (get_field params "title"))
               (present (get_field params "author"))
               (present (get_field params "journal"))
               (present (get_field params "start_date"))
               (present (get_field params "end_date"))))
    /\ ((present (get_field params "term") <> None
         \/ present (get_field params "title") <> None
         \/ present (get_field params "author") <> None
         \/ present (get_field params "journal") <> None
         \/ present (get_field params "start_date") <> None
         \/ present (get_field params "end_date") <> None) ->
        String.concat " AND "
          (advanced_clauses
             (present (get_field params "term"))
             (present (get_field params "title"))
             (present (get_field params "author"))
             (present (get_field params "journal"))
             (present (get_field params "start_date"))
             (present (get_field params "end_date"))) <> ""
        /\ forall (upstream : RequestLog -> string -> option JsVal)
                  (log : RequestLog) (url : string),
            generatePubMedSearchUrl
              (VStr (String.concat " AND "
                       (advanced_clauses
                          (present (get_field params "term"))
                          (present (get_field params "title"))
                          (present (get_field params "author"))
                          (present (get_field params "journal"))
                          (present (get_field params "start_date"))
                          (present (get_field params "end_date")))))
              (or_else (get_field params "num_results") (VNum 10)) = Ok url ->
            exists ids out rest,
              searchPubMed upstream url log = (Ok ids, log ++ [url])
              /\ searchAdvanced upstream params log = (out, log ++ url :: rest)
              /\ (Forall (fun id => convertible id = true) ids ->
                  out = Ok (fetched_records upstream ids (log ++ [url]))
                  /\ rest = map fetch_url ids)).
Proof.
  intros params H1 H2 H3 H4 H5 H6.
  assert (Hq : searchAdvanced_query params
               = Ok (String.concat " AND "
                       (advanced_clauses
                          (present (get_field params "term"))
                          (present (get_field params "title"))
                          (present (get_field params "author"))
                          (present (get_field params "journal"))
                          (present (get_field params "start_date"))
                          (present (get_field params "end_date"))))).
  { unfold searchAdvanced_query.
    rewrite searchAdvanced_terms_clauses by assumption.
    apply Array_join_strings. }
  split; [exact Hq|]. intros Hp.
  pose proof (clauses_nonempty _ _ _ _ _ _ Hp) as Hne.
  split; [exact Hne|]. intros upstream log url Hu.
  assert (Hn : nullish params = false).
  { destruct params; try reflexivity; simpl in Hp; intuition congruence. }
  destruct (searchPubMed_returns upstream url log) as [ids Hs].
  rewrite (searchAdvanced_unfold upstream _ _ _ _ _ Hn Hq Hne Hu Hs).
  destruct (fetch_each_outcome upstream ids [] (log ++ [url]))
    as (out & rest & Hf & _).
  exists ids, out, rest. split; [exact Hs|]. split.
  - rewrite Hf. now rewrite <- app_assoc.
  - intros Hc. rewrite (fetch_each_run upstream _ Hc) in Hf. simpl in Hf.
    inversion Hf as [[Ho Hl]]. split; [reflexivity|].
    now apply app_inv_head in Hl.
Qed.

Lemma advanced_query_composition_witness :
  searchAdvanced_query
    (VObj [("method", VStr "search_advanced"); ("num_results", VNum 10);
           ("author", VStr "Smith J"); ("journal", VStr "Nature");
           ("start_date", VStr "2023/01/01")])
  = Ok "Smith J[Author] AND Nature[Journal] AND 2023/01/01:3000[Date - Publication]"
  /\ exists ids out rest,
      searchPubMed failing_upstream
        "https://eutils.ncbi.nlm.nih.gov/entrez/eutils/esearch.fcgi?db=pubmed&term=Smith%20J%5BAuthor%5D%20AND%20Nature%5BJournal%5D%20AND%202023%2F01%2F01%3A3000%5BDate%20-%20Publication%5D&retmax=10&retmode=xml"
        []
      = (Ok ids,
         [] ++ ["https://eutils.ncbi.nlm.nih.gov/entrez/eutils/esearch.fcgi?db=pubmed&term=Smith%20J%5BAuthor%5D%20AND%20Nature%5BJournal%5D%20AND%202023%2F01%2F01%3A3000%5BDate%20-%20Publication%5D&retmax=10&retmode=xml"])
      /\ searchAdvanced failing_upstream
           (VObj [("method", VStr "search_advanced"); ("num_results", VNum 10);
                  ("author", VStr "Smith J"); ("journal", VStr "Nature");
                  ("start_date", VStr "2023/01/01")]) []
         = (out,
            [] ++ "https://eutils.ncbi.nlm.nih.gov/entrez/eutils/esearch.fcgi?db=pubmed&term=Smith%20J%5BAuthor%5D%20AND%20Nature%5BJournal%5D%20AND%202023%2F01%2F01%3A3000%5BDate%20-%20Publication%5D&retmax=10&retmode=xml"
               :: rest)
      /\ (Forall (fun id => convertible id = true) ids ->
          out = Ok (fetched_records failing_upstream ids
                      ([] ++ ["https://eutils.ncbi.nlm.nih.gov/entrez/eutils/esearch.fcgi?db=pubmed&term=Smith%20J%5BAuthor%5D%20AND%20Nature%5BJournal%5D%20AND%202023%2F01%2F01%3A3000%5BDate%20-%20Publication%5D&retmax=10&retmode=xml"]))
          /\ rest = map fetch_url ids).
Proof.
  pose proof (advanced_query_composition
                (VObj [("method", VStr "search_advanced");
                       ("num_results", VNum 10);
                       ("author", VStr "Smith J"); ("journal", VStr "Nature");
                       ("start_date", VStr "2023/01/01")])
                I I I I I I) as [H1 H2].
  split; [exact H1|].
  refine (proj2 (H2 _) failing_upstream [] _ eq_refl).
  right. right. left. discriminate.
Defined.

(** The two date clauses the specification quotes. *)
Example start_date_only :
  searchAdvanced_query (VObj [("start_date", VStr "2023/01/01")])
  = Ok "2023/01/01:3000[Date - Publication]".
Proof. reflexivity. Qed.

Example end_date_only :
  searchAdvanced_query (VObj [("end_date", VStr "2024/12/31")])
  = Ok "1800:2024/12/31[Date - Publication]".
Proof. reflexivity. Qed.

(** Every field of a record, read back from the document it came from. *)
Lemma extract_record_fields (p doc : JsVal) (r : ArticleRecord) :
  extract_record p doc = Ok (Some r) ->
  truthy (doc_article doc) = true
  /\ truthy (doc_citation doc) = true
  /\ title r
     = or_else
         (opt_index0
            (opt_prop (opt_index0 (get_field (doc_citation doc) "Article"))
               "ArticleTitle"))
         (VStr "No title available")
  /\ journal r
     = or_else
         (opt_index0
            (opt_prop
               (opt_index0
                  (opt_prop
                     (opt_index0 (get_field (doc_citation doc) "Article"))
                     "Journal"))
               "Title"))
         (VStr "Unknown journal")
  /\ extract_authors (doc_citation doc) = Ok (authors r)
  /\ extract_publication_date (doc_citation doc) = Ok (publication_date r)
  /\ extract_abstract (doc_citation doc) = Ok (abstract r)
  /\ extract_id "doi" (doc_article_ids doc) = Ok (doi r)
  /\ extract_id "pmc" (doc_article_ids doc) = Ok (pmcid r)
  /\ extract_mesh (doc_citation doc) = Ok (mesh_terms r)
  /\ extract_keywords (doc_citation doc) = Ok (keywords r).
Proof.
  intros H. unfold extract_record in H.
  unfold doc_citation, doc_article_ids, doc_article.
  set (article :=
         opt_index0 (opt_prop (opt_prop doc "PubmedArticleSet") "PubmedArticle"))
    in *.
  destruct (truthy article) eqn:Ta; [|discriminate H].
  cbv zeta in H. simpl negb in H. cbv iota in H.
  rewrite !(prop_truthy _ _ Ta) in H. simpl bindR in H.
  set (mc := opt_index0 (get_field article "MedlineCitation")) in *.
  destruct (truthy mc) eqn:Tm; [|discriminate H].
  simpl negb in H. cbv iota in H.
  rewrite !(prop_truthy _ _ Tm) in H. simpl bindR in H.
  destruct (extract_authors mc) as [au|] eqn:E1; [|discriminate H].
  destruct (extract_publication_date mc) as [pd|] eqn:E2; [|discriminate H].
  destruct (extract_abstract mc) as [ab|] eqn:E3; [|discriminate H].
  simpl bindR in H.
  match type of H with
  | context [extract_id "doi" ?ids] =>
      destruct (extract_id "doi" ids) as [d|] eqn:E4; [|discriminate H];
      destruct (extract_id "pmc" ids) as [c|] eqn:E5; [|discriminate H]
  end.
  destruct (extract_mesh mc) as [ms|] eqn:E6; [|discriminate H].
  destruct (extract_keywords mc) as [ks|] eqn:E7; [|discriminate H].
  simpl bindR in H.
  destruct (ToString p) as [id|] eqn:E8; [|discriminate H].
  simpl bindR in H. inversion H; subst r; simpl.
  repeat split; reflexivity || assumption.
Qed.

(** ** Authors *)

Lemma author_name_present (author : JsVal) :
  nullish author = false ->
  author_name author =
  if truthy (last_name_of author)
  then
    l <~ ToString (last_name_of author) ;;
    f <~ ToString (fore_name_of author) ;;
    Ok (Some (trim (l ++ ", " ++ f)))
  else Ok None.
Proof.
  intros Hn. unfold author_name, prop, last_name_of, fore_name_of.
  rewrite Hn. reflexivity.
Qed.

(** Whenever the body of the loop completes for an author, it pushes the
    entry of that author, or nothing when there is none. *)
Lemma author_name_Ok (author : JsVal) (e : option string) :
  author_name author = Ok e -> e = entry_of author.
Proof.
  intros H. destruct (nullish author) eqn:Hn.
  - unfold author_name, prop in H. rewrite Hn in H. discriminate H.
  - rewrite (author_name_present _ Hn) in H. unfold entry_of.
    destruct (truthy (last_name_of author)); [|now inversion H].
    destruct (ToString_cases (last_name_of author)) as [E|E]; rewrite E in H;
      simpl in H; [|discriminate H].
    destruct (ToString_cases (fore_name_of author)) as [E'|E']; rewrite E' in H;
      simpl in H; [|discriminate H].
    now inversion H.
Qed.

(** The loop over the author list keeps the order of the payload. *)
Lemma push_authors_Ok (l : list JsVal) :
  forall acc res,
    push_authors l acc = Ok res ->
    res = acc ++ flat_map (fun a => option_list (entry_of a)) l.
Proof.
  induction l as [|a l IH]; simpl; intros acc res H.
  - inversion H. now rewrite app_nil_r.
  - destruct (author_name a) as [e|] eqn:E; simpl in H; [|discriminate H].
    rewrite <- (author_name_Ok _ _ E).
    destruct e as [name|]; rewrite (IH _ _ H); simpl; [|reflexivity].
    now rewrite <- app_assoc.
Qed.

Lemma record_authors (p doc : JsVal) (r : ArticleRecord) :
  extract_record p doc = Ok (Some r) ->
  (forall l, doc_author_list doc = VArr l ->
             authors r = flat_map (fun a => option_list (entry_of a)) l)
  /\ (truthy (doc_author_list doc) = false -> authors r = []).
Proof.
  intros H.
  destruct (extract_record_fields _ _ _ H) as (_ & Tm & _ & _ & Ha & _).
  unfold extract_authors in Ha. rewrite (prop_truthy _ _ Tm) in Ha.
  simpl bindR in Ha. fold (doc_author_list doc) in Ha. split.
  - intros l Hl. rewrite Hl in Ha. simpl in Ha.
    exact (push_authors_Ok _ _ _ Ha).
  - intros F. rewrite F in Ha. now inversion Ha.
Qed.

(** C8, as the code has it.  The [authors] of a record are the entries of
    the authors of the payload, in payload order, an author without a last
    name giving no entry.  The entry is [trim] of [LastName, ForeName]:
    white space is removed at both ends and nothing else.  With a given
    name it is [LastName, ForeName] (exactly so when the names carry no
    outer white space); without a given name it is the last name followed
    by the comma, [LastName,]: [trim] removes the trailing space and keeps
    the comma. *)
Theorem author_entry_format :
  (forall (p doc : JsVal) (r : ArticleRecord),
      extract_record p doc = Ok (Some r) ->
      (forall l,
          doc_author_list doc = VArr l ->
          authors r = flat_map (fun a => option_list (entry_of a)) l)
      /\ (truthy (doc_author_list doc) = false -> authors r = []))
  /\ (forall (author : JsVal),
         (forall e, author_name author = Ok e -> e = entry_of author)
         /\ (nullish author = false ->
             (truthy (last_name_of author) = false ->
              author_name author = Ok None)
             /\ (forall l f,
                    truthy (last_name_of author) = true ->
                    ToString (last_name_of author) = Ok l ->
                    ToString (fore_name_of author) = Ok f ->
                    author_name author = Ok (Some (trim (l ++ ", " ++ f))))
             /\ (forall ln more,
                    get_field author "LastName" = VArr (VStr ln :: more) ->
                    ln <> "" ->
                    (forall fn more',
                        get_field author "ForeName" = VArr (VStr fn :: more') ->
                        author_name author = Ok (Some (trim (ln ++ ", " ++ fn)))
                        /\ (trimStart ln = ln -> trimEnd fn = fn -> fn <> "" ->
                            author_name author
                            = Ok (Some (ln ++ ", " ++ fn)%string)))
                    /\ (get_field author "ForeName" = VUndef ->
                        author_name author
                        = Ok (Some (trimStart ln ++ ",")%string)
                        /\ (trimStart ln = ln ->
                            author_name author
                            = Ok (Some (ln ++ ",")%string)))))).
Proof.
  split; [exact record_authors|].
  intros author. split; [exact (author_name_Ok author)|].
  intros Hn. rewrite (author_name_present _ Hn). split; [|split].
  - intros ->. reflexivity.
  - intros l f -> -> ->. reflexivity.
  - intros ln more Hl Hln. unfold last_name_of, fore_name_of. rewrite Hl.
    change (opt_index0 (VArr (VStr ln :: more))) with (VStr ln).
    assert (Ht : or_else (VStr ln) (VStr "") = VStr ln)
      by (destruct ln; [contradiction | reflexivity]).
    assert (Ht' : truthy (VStr ln) = true)
      by (destruct ln; [contradiction | reflexivity]).
    rewrite Ht, Ht'. change (ToString (VStr ln)) with (Ok ln). cbn [bindR].
    split.
    + intros fn more' ->.
      change (opt_index0 (VArr (VStr fn :: more'))) with (VStr fn).
      assert (Hf : ToString (or_else (VStr fn) (VStr "")) = Ok fn)
        by (destruct fn; reflexivity).
      rewrite Hf. cbn [bindR]. split; [reflexivity|].
      intros H1 H2 H3. now rewrite trim_clean.
    + intros ->.
      change (ToString (or_else (opt_index0 VUndef) (VStr ""))) with (Ok "").
      cbn [bindR]. rewrite trim_last_name_only.
      split; [reflexivity|]. intros ->. reflexivity.
Qed.

Lemma author_entry_format_witness :
  authors sample_record
  = flat_map (fun a => option_list (entry_of a))
      [author_full; author_last_only; author_collective]
  /\ author_name author_last_only = Ok (Some "Smith,")
  /\ author_name author_full = Ok (Some "Doe, Jane")
  /\ author_name author_collective = Ok None.
Proof.
  pose proof (proj2 author_entry_format) as H. split; [|split; [|split]].
  - exact (proj1 (proj1 author_entry_format (VStr "31452104") sample_doc
                    sample_record eq_refl) _ eq_refl).
  - destruct (proj2 (H author_last_only) eq_refl) as (_ & _ & H2).
    destruct (H2 "Smith" [] eq_refl) as [_ H3]; [discriminate|].
    exact (proj1 (H3 eq_refl)).
  - destruct (proj2 (H author_full) eq_refl) as (_ & _ & H2).
    destruct (H2 "Doe" [] eq_refl) as [H3 _]; [discriminate|].
    apply (proj2 (H3 "Jane" [] eq_refl)); [reflexivity | reflexivity | discriminate].
  - exact (proj1 (proj2 (H author_collective) eq_refl) eq_refl).
Defined.

(** C8 as stated fails: for an author with the last name [Smith] and no
    given name the record lists [Smith,], comma included, not [Smith]. *)
Lemma last_name_only_keeps_comma :
  exists r,
    extract_record (VStr "31452104")
      (article_doc [author_last_only] pubdate_full ids_doi_pmc)
    = Ok (Some r)
    /\ authors r = ["Smith,"]
    /\ authors r <> ["Smith"].
Proof.
  eexists. split; [reflexivity|]. split; [reflexivity | discriminate].
Qed.

(** ** The publication date *)

(** The date of a record whose [PubDate] element is present: the present
    components among year, month and day, joined with [-]. *)
Lemma join_date_components (pubDate : JsVal) (y m d : JsVal) :
  nullish pubDate = false ->
  opt_index0 (get_field pubDate "Year") = y ->
  opt_index0 (get_field pubDate "Month") = m ->
  opt_index0 (get_field pubDate "Day") = d ->
  string_or_absent y -> string_or_absent m -> string_or_absent d ->
  join_date pubDate
  = Ok (String.concat "-"
          (option_list (present y) ++ option_list (present m)
             ++ option_list (present d))).
Proof.
  intros Hn <- <- <- Hy Hm Hd. unfold join_date, prop. rewrite Hn. simpl bindR.
  destruct (opt_index0 (get_field pubDate "Year")) as [| | | |[|c1 r1]| | |];
    try contradiction;
    destruct (opt_index0 (get_field pubDate "Month")) as [| | | |[|c2 r2]| | |];
    try contradiction;
    destruct (opt_index0 (get_field pubDate "Day")) as [| | | |[|c3 r3]| | |];
    try contradiction; reflexivity.
Qed.

(** C7 fails on the code: a [PubDate] element that is present and has no
    year, month or day (here a free-text [MedlineDate]) gives the empty
    string as publication date, not [Unknown date]. *)
Theorem publication_date_without_components :
  exists r,
    extract_record (VStr "10000")
      (article_doc [author_full] pubdate_medline ids_doi_pmc)
    = Ok (Some r)
    /\ publication_date r = ""
    /\ publication_date r <> "Unknown date".
Proof.
  eexists. split; [reflexivity|]. split; [reflexivity | discriminate].
Qed.

(** The sentinel is produced when the [PubDate] element itself is absent. *)
Example publication_date_absent :
  extract_publication_date (VObj [("Article", VArr [VObj []])])
  = Ok "Unknown date".
Proof. reflexivity. Qed.

Example publication_date_full :
  join_date pubdate_full = Ok "2024-Mar-15".
Proof. reflexivity. Qed.

(** * Sample runs *)

Example sample_extraction :
  extract_record (VStr "31452104") sample_doc = Ok (Some sample_record).
Proof. reflexivity. Qed.

(** The guard on the tool name sits outside the [try] block: its error is
    the one exception of the handler that reaches the caller. *)
Example unknown_tool_escapes :
  CallTool failing_upstream sample_stringify sample_wording "pubmed_search"
    (VObj [("method", VStr "search_keywords")]) []
  = (Throw (Error "Unknown tool: pubmed_search"), []).
Proof. reflexivity. Qed.

Example advanced_search_request :
  snd (searchAdvanced failing_upstream
         (VObj [("author", VStr "Smith J"); ("start_date", VStr "2023/01/01")])
         [])
  = ["https://eutils.ncbi.nlm.nih.gov/entrez/eutils/esearch.fcgi?db=pubmed&term=Smith%20J%5BAuthor%5D%20AND%202023%2F01%2F01%3A3000%5BDate%20-%20Publication%5D&retmax=10&retmode=xml"].
Proof. reflexivity. Qed.

(** A failed search is an empty result, not an error. *)
Example search_with_failing_upstream :
  CallTool failing_upstream sample_stringify sample_wording "pubmed_articles"
    (VObj [("method", VStr "search_keywords"); ("keywords", VStr "asthma");
           ("num_results", VNum 3)]) []
  = (Ok (text_response sample_stringify (VArr [])),
     ["https://eutils.ncbi.nlm.nih.gov/entrez/eutils/esearch.fcgi?db=pubmed&term=asthma&retmax=3&retmode=xml"]).
Proof. reflexivity. Qed.

(** A record without identifier of type [pmc] has no PDF link. *)
Example pdf_without_pmcid :
  downloadFullTextPdf
    (fixed_upstream [] (article_doc [author_full] pubdate_full ids_doi_only))
    (VNum 31452104) []
  = (Ok (VObj
           [("message",
             VStr "PDF not directly available for PMID 31452104. Check publisher website.")]),
     ["https://eutils.ncbi.nlm.nih.gov/entrez/eutils/efetch.fcgi?db=pubmed&id=31452104&retmode=xml"]).
Proof. reflexivity. Qed.

(** An identifier that is an object with a [toString] entry of its own
    cannot be converted: the lookup ends in the error envelope before any
    request. *)
Example unconvertible_pmid :
  CallTool (fixed_upstream [] sample_doc) sample_stringify sample_wording
    "pubmed_articles"
    (VObj [("method", VStr "get_article_metadata");
           ("pmid", VObj [("toString", VNum 1)])]) []
  = (Ok (error_envelope sample_stringify (sample_wording NotPrimitive)), []).
Proof. reflexivity. Qed.

(** A last name that the parser gives as an object without prototype, as
    it does for an element with attributes, cannot be converted either: the
    extraction throws and the fetch yields no record. *)
Example last_name_with_attributes :
  getPubMedMetadata
    (fixed_upstream []
       (article_doc
          [VBare [("LastName", VArr [element "Doe" "Lang" "en"])]]
          pubdate_full ids_doi_pmc))
    (VStr "31452104") []
  = (Ok None,
     ["https://eutils.ncbi.nlm.nih.gov/entrez/eutils/efetch.fcgi?db=pubmed&id=31452104&retmode=xml"]).
Proof. reflexivity. Qed.

(** * Further properties of the extraction *)

(** X1. The title and the journal of a record are never falsy: when the
    payload has no title (or an empty one) the title is
    [No title available], when it has no journal title the journal is
    [Unknown journal]. *)
Theorem title_and_journal_fall_back :
  forall (p doc : JsVal) (r : ArticleRecord),
    extract_record p doc = Ok (Some r) ->
    truthy (title r) = true
    /\ truthy (journal r) = true
    /\ (truthy
          (opt_index0
             (opt_prop (opt_index0 (get_field (doc_citation doc) "Article"))
                "ArticleTitle")) = false ->
        title r = VStr "No title available")
    /\ (truthy
          (opt_index0
             (opt_prop
                (opt_index0
                   (opt_prop
                      (opt_index0 (get_field (doc_citation doc) "Article"))
                      "Journal"))
                "Title")) = false ->
        journal r = VStr "Unknown journal").
Proof.
  intros p doc r H.
  destruct (extract_record_fields _ _ _ H) as (_ & _ & Ht & Hj & _).
  rewrite Ht, Hj. repeat split.
  - now apply truthy_or_else.
  - now apply truthy_or_else.
  - intros F. now apply or_else_falsy.
  - intros F. now apply or_else_falsy.
Qed.

Lemma title_and_journal_fall_back_witness :
  truthy (title bare_record) = true
  /\ truthy (journal bare_record) = true
  /\ title bare_record = VStr "No title available"
  /\ journal bare_record = VStr "Unknown journal".
Proof.
  destruct (title_and_journal_fall_back (VStr "31452104") bare_doc bare_record
              eq_refl) as (H1 & H2 & H3 & H4).
  exact (conj H1 (conj H2 (conj (H3 eq_refl) (H4 eq_refl)))).
Defined.

Lemma author_name_nonempty (author : JsVal) (name : string) :
  author_name author = Ok (Some name) -> name <> "".
Proof.
  intros H. apply author_name_Ok in H. unfold entry_of in H.
  destruct (truthy (last_name_of author)); inversion H.
  apply trim_separator_nonempty.
Qed.

Lemma push_authors_keeps (l : list JsVal) :
  forall acc res,
    push_authors l acc = Ok res ->
    Forall (fun n => n <> "") acc -> Forall (fun n => n <> "") res.
Proof.
  induction l as [|a l IH]; simpl; intros acc res H Hacc.
  - inversion H; subst. exact Hacc.
  - destruct (author_name a) as [[name|]|e] eqn:E; simpl in H; try discriminate.
    + apply (IH _ _ H). apply Forall_app. split; [exact Hacc|].
      constructor; [exact (author_name_nonempty _ _ E) | constructor].
    + exact (IH _ _ H Hacc).
Qed.

Lemma push_mesh_keeps (l : list JsVal) :
  forall acc res,
    push_mesh l acc = Ok res ->
    Forall (fun m => truthy m = true) acc -> Forall (fun m => truthy m = true) res.
Proof.
  induction l as [|h l IH]; simpl; intros acc res H Hacc.
  - inversion H; subst. exact Hacc.
  - destruct (prop h "DescriptorName") as [dn|]; simpl in H; [|discriminate].
    destruct (truthy (opt_prop (opt_index0 dn) "_")) eqn:E.
    + apply (IH _ _ H). apply Forall_app. split; [exact Hacc|].
      constructor; [exact E | constructor].
    + exact (IH _ _ H Hacc).
Qed.

Lemma push_keywords_keeps (l : list JsVal) :
  forall acc res,
    push_keywords l acc = Ok res ->
    Forall (fun k => is_string k = true \/ truthy k = true) acc ->
    Forall (fun k => is_string k = true \/ truthy k = true) res.
Proof.
  induction l as [|k l IH]; simpl; intros acc res H Hacc.
  - inversion H; subst. exact Hacc.
  - destruct (is_string k) eqn:Es.
    + apply (IH _ _ H). apply Forall_app. split; [exact Hacc|].
      constructor; [now left | constructor].
    + destruct (prop k "_") as [t|]; simpl in H; [|discriminate].
      destruct (truthy t) eqn:E.
      * apply (IH _ _ H). apply Forall_app. split; [exact Hacc|].
        constructor; [now right | constructor].
      * exact (IH _ _ H Hacc).
Qed.

(** X2. In every record each author entry is a non-empty string, each
    subject heading is truthy, and each keyword is a string or truthy: the
    loops never push an empty author or a missing descriptor, while an
    empty keyword element is kept as the empty string. *)
Theorem record_lists_hold_no_blanks :
  forall (p doc : JsVal) (r : ArticleRecord),
    extract_record p doc = Ok (Some r) ->
    Forall (fun n => n <> "") (authors r)
    /\ Forall (fun m => truthy m = true) (mesh_terms r)
    /\ Forall (fun k => is_string k = true \/ truthy k = true) (keywords r).
Proof.
  intros p doc r H.
  destruct (extract_record_fields _ _ _ H)
    as (_ & _ & _ & _ & Ha & _ & _ & _ & _ & Hm & Hk).
  repeat split.
  - unfold extract_authors in Ha.
    destruct (prop (doc_citation doc) "Article") as [art|]; simpl in Ha;
      [|discriminate].
    destruct (truthy _) in Ha; [|inversion Ha; constructor].
    destruct (iterate _) as [l|] in Ha; simpl in Ha; [|discriminate].
    exact (push_authors_keeps _ _ _ Ha (Forall_nil _)).
  - unfold extract_mesh in Hm.
    destruct (prop (doc_citation doc) "MeshHeadingList") as [x|]; simpl in Hm;
      [|discriminate].
    destruct (truthy _) in Hm; [|inversion Hm; constructor].
    destruct (iterate _) as [l|] in Hm; simpl in Hm; [|discriminate].
    exact (push_mesh_keeps _ _ _ Hm (Forall_nil _)).
  - unfold extract_keywords in Hk.
    destruct (prop (doc_citation doc) "KeywordList") as [x|]; simpl in Hk;
      [|discriminate].
    destruct (truthy _) in Hk; [|inversion Hk; constructor].
    destruct (iterate _) as [l|] in Hk; simpl in Hk; [|discriminate].
    exact (push_keywords_keeps _ _ _ Hk (Forall_nil _)).
Qed.

Lemma record_lists_hold_no_blanks_witness :
  Forall (fun n => n <> "") (authors sample_record)
  /\ Forall (fun m => truthy m = true) (mesh_terms sample_record)
  /\ Forall (fun k => is_string k = true \/ truthy k = true)
       (keywords sample_record).
Proof.
  exact (record_lists_hold_no_blanks (VStr "31452104") sample_doc sample_record
           eq_refl).
Defined.

Lemma first_id_of_type_found (idType : string) (l : list JsVal) (v : JsVal) :
  first_id_of_type idType l = Ok v -> v = first_text_of_type idType l.
Proof.
  unfold first_text_of_type. induction l as [|id l IH]; simpl; intros H.
  - now inversion H.
  - unfold prop in H. destruct (nullish id) eqn:En; simpl in H; [discriminate|].
    fold (id_matches idType id) in H.
    destruct (id_matches idType id); [now inversion H | exact (IH H)].
Qed.

Lemma extract_id_found (idType : string) (ids v : JsVal) :
  extract_id idType ids = Ok v ->
  (truthy ids = false -> v = VStr "")
  /\ (forall l, ids = VArr l -> v = first_text_of_type idType l).
Proof.
  unfold extract_id. intros H. split.
  - intros F. rewrite F in H. now inversion H.
  - intros l ->. simpl in H. exact (first_id_of_type_found _ _ _ H).
Qed.

(** X3. The [doi] and the [pmcid] of a record are the texts of the first
    identifier whose [IdType] attribute is [doi], respectively [pmc];
    identifiers without attributes or of another type are passed over, and
    each field is the empty string when the list has no identifier of its
    type or the payload has no list. *)
Theorem identifiers_first_of_type :
  forall (p doc : JsVal) (r : ArticleRecord),
    extract_record p doc = Ok (Some r) ->
    (truthy (doc_article_ids doc) = false ->
     doi r = VStr "" /\ pmcid r = VStr "")
    /\ (forall l,
           doc_article_ids doc = VArr l ->
           doi r = first_text_of_type "doi" l
           /\ pmcid r = first_text_of_type "pmc" l
           /\ (forallb (fun id => negb (id_matches "pmc" id)) l = true ->
               pmcid r = VStr "")).
Proof.
  intros p doc r H.
  destruct (extract_record_fields _ _ _ H)
    as (_ & _ & _ & _ & _ & _ & _ & Hd & Hc & _).
  destruct (extract_id_found _ _ _ Hd) as [Hd0 Hd1].
  destruct (extract_id_found _ _ _ Hc) as [Hc0 Hc1].
  split.
  - intros F. split; [exact (Hd0 F) | exact (Hc0 F)].
  - intros l Hl. split; [exact (Hd1 _ Hl)|]. split; [exact (Hc1 _ Hl)|].
    intros Hnone. rewrite (Hc1 _ Hl). unfold first_text_of_type.
    destruct (find (id_matches "pmc") l) as [id|] eqn:Ef; [|reflexivity].
    apply find_some in Ef. destruct Ef as [Hin Hmatch].
    rewrite forallb_forall in Hnone. specialize (Hnone _ Hin).
    rewrite Hmatch in Hnone. discriminate.
Qed.

Lemma identifiers_first_of_type_witness :
  doi sample_record = first_text_of_type "doi" ids_doi_pmc
  /\ pmcid sample_record = first_text_of_type "pmc" ids_doi_pmc
  /\ (forallb (fun id => negb (id_matches "pmc" id)) ids_doi_pmc = true ->
      pmcid sample_record = VStr "").
Proof.
  exact (proj2 (identifiers_first_of_type (VStr "31452104") sample_doc
                  sample_record eq_refl) ids_doi_pmc eq_refl).
Defined.

Lemma abstract_segment_found (text seg : JsVal) :
  abstract_segment text = Ok seg -> seg = segment_value text.
Proof.
  unfold abstract_segment, segment_value, or_else, prop.
  destruct (is_string text); [intros H; now inversion H|].
  destruct (nullish text); simpl; [discriminate|].
  destruct (truthy (get_field text "_")); intros H; now inversion H.
Qed.

Lemma map_segments_found (l segs : list JsVal) :
  map_segments l = Ok segs -> segs = map segment_value l.
Proof.
  revert segs. induction l as [|t l IH]; simpl; intros segs H.
  - now inversion H.
  - destruct (abstract_segment t) as [seg|] eqn:E; simpl in H; [|discriminate].
    destruct (map_segments l) as [rest|]; simpl in H; [|discriminate].
    inversion H; subst. now rewrite (abstract_segment_found _ _ E), (IH _ eq_refl).
Qed.

Lemma segment_value_strings (segs : list string) :
  map segment_value (map VStr segs) = map VStr segs.
Proof. rewrite map_map. reflexivity. Qed.

(** X4. The abstract of a record is the texts of the [AbstractText]
    segments joined with one space, in payload order: a plain segment is
    taken as it is, a segment with attributes contributes its text only
    (its label is dropped) and the empty string when it has none.  Without
    segments the abstract is the empty string. *)
Theorem abstract_is_space_joined :
  forall (p doc : JsVal) (r : ArticleRecord),
    extract_record p doc = Ok (Some r) ->
    (truthy (doc_abstract_texts doc) = false -> abstract r = "")
    /\ (forall l,
           doc_abstract_texts doc = VArr l ->
           Array_join " " (map segment_value l) = Ok (abstract r))
    /\ (forall segs,
           doc_abstract_texts doc = VArr (map VStr segs) ->
           abstract r = String.concat " " segs).
Proof.
  intros p doc r H.
  destruct (extract_record_fields _ _ _ H)
    as (_ & Tm & _ & _ & _ & _ & Ha & _).
  unfold extract_abstract in Ha. rewrite (prop_truthy _ _ Tm) in Ha.
  simpl bindR in Ha. fold (doc_abstract_texts doc) in Ha.
  assert (Harr : forall l, doc_abstract_texts doc = VArr l ->
                           Array_join " " (map segment_value l)
                           = Ok (abstract r)).
  { intros l Hl. rewrite Hl in Ha. simpl in Ha.
    destruct (map_segments l) as [segs|] eqn:E; simpl in Ha; [|discriminate].
    now rewrite <- (map_segments_found _ _ E). }
  split; [|split].
  - intros F. rewrite F in Ha. now inversion Ha.
  - exact Harr.
  - intros segs Hl. pose proof (Harr _ Hl) as Hj.
    rewrite segment_value_strings, Array_join_strings in Hj.
    now inversion Hj.
Qed.

Lemma abstract_is_space_joined_witness :
  Array_join " "
    (map segment_value
       [VStr "Background."; element "Results." "Label" "RESULTS"])
  = Ok (abstract sample_record).
Proof.
  exact (proj1 (proj2 (abstract_is_space_joined (VStr "31452104") sample_doc
                         sample_record eq_refl)) _ eq_refl).
Defined.

(** X15. The publication date of a record is [Unknown date] when the
    payload has no [PubDate] element.  When it has one, the date is the
    present components among year, month and day, in this order and joined
    with [-]; a component that is absent or empty is left out, so a
    [PubDate] with none of the three gives the empty string. *)
Theorem publication_date_of_record :
  forall (p doc : JsVal) (r : ArticleRecord),
    extract_record p doc = Ok (Some r) ->
    (truthy (doc_pub_date doc) = false ->
     publication_date r = "Unknown date")
    /\ (truthy (doc_pub_date doc) = true ->
        string_or_absent (opt_index0 (get_field (doc_pub_date doc) "Year")) ->
        string_or_absent (opt_index0 (get_field (doc_pub_date doc) "Month")) ->
        string_or_absent (opt_index0 (get_field (doc_pub_date doc) "Day")) ->
        publication_date r
        = String.concat "-"
            (option_list
               (present (opt_index0 (get_field (doc_pub_date doc) "Year")))
             ++ option_list
                  (present (opt_index0 (get_field (doc_pub_date doc) "Month")))
             ++ option_list
                  (present (opt_index0 (get_field (doc_pub_date doc) "Day"))))).
Proof.
  intros p doc r H.
  destruct (extract_record_fields _ _ _ H)
    as (_ & Tm & _ & _ & _ & Hd & _).
  unfold extract_publication_date in Hd. rewrite (prop_truthy _ _ Tm) in Hd.
  simpl bindR in Hd. fold (doc_pub_date doc) in Hd. split.
  - intros F. rewrite F in Hd. now inversion Hd.
  - intros T Hy Hm Hday. rewrite T in Hd.
    rewrite (join_date_components (doc_pub_date doc) _ _ _
               (truthy_not_nullish _ T) eq_refl eq_refl eq_refl Hy Hm Hday)
      in Hd.
    now inversion Hd.
Qed.

Lemma publication_date_of_record_witness :
  publication_date sample_record
  = String.concat "-"
      (option_list
         (present (opt_index0 (get_field (doc_pub_date sample_doc) "Year")))
       ++ option_list
            (present (opt_index0 (get_field (doc_pub_date sample_doc) "Month")))
       ++ option_list
            (present (opt_index0 (get_field (doc_pub_date sample_doc) "Day")))).
Proof.
  exact (proj2 (publication_date_of_record (VStr "31452104") sample_doc
                  sample_record eq_refl) eq_refl I I I).
Defined.

(** * Further properties of the Gateway *)

Lemma push_ids_flat_map (l : list JsVal) :
  forall acc, push_ids l acc = acc ++ flat_map id_text l.
Proof.
  induction l as [|id l IH]; intros acc; simpl.
  - now rewrite app_nil_r.
  - unfold id_text. destruct (is_string id).
    + rewrite IH. now rewrite <- app_assoc.
    + destruct (truthy (opt_prop id "_")).
      * rewrite IH. now rewrite <- app_assoc.
      * apply IH.
Qed.

Lemma id_text_strings (ss : list string) :
  flat_map id_text (map VStr ss) = map VStr ss.
Proof.
  induction ss as [|x ss IH]; simpl; [reflexivity | now rewrite IH].
Qed.

(** Once the guard of [searchPubMed] has passed, the plain accesses that
    follow it read the same list. *)
Lemma parse_id_list_guarded (doc : JsVal) :
  truthy (doc_id_list doc) = true ->
  parse_id_list doc = (l <~ iterate (doc_id_list doc) ;; Ok (push_ids l [])).
Proof.
  intros T. unfold parse_id_list. fold (doc_id_list doc). rewrite T.
  unfold doc_id_list, opt_prop, opt_index0 in T |- *.
  destruct (nullish doc) eqn:E0; [discriminate T|].
  unfold prop, index0. rewrite E0. simpl bindR.
  destruct (nullish (get_field doc "eSearchResult")) eqn:E1; [discriminate T|].
  simpl bindR.
  destruct (nullish (get_field (get_field doc "eSearchResult") "IdList")) eqn:E2;
    [discriminate T|].
  simpl bindR.
  destruct (nullish (get_index0 (get_field (get_field doc "eSearchResult") "IdList")))
    eqn:E3; [discriminate T|].
  reflexivity.
Qed.

(** X5. When the search answer carries a list of [Id] elements, the search
    step returns their identifiers in the order of the answer: a text-only
    element gives its text (the empty text included), an element with
    attributes gives its text when it has one, and any other element is
    passed over. *)
Theorem search_identifiers_in_order :
  forall (upstream : RequestLog -> string -> option JsVal)
         (url : string) (log : RequestLog) (doc : JsVal) (l : list JsVal),
    upstream log url = Some doc ->
    doc_id_list doc = VArr l ->
    searchPubMed upstream url log = (Ok (flat_map id_text l), log ++ [url])
    /\ (forall ss,
           l = map VStr ss ->
           searchPubMed upstream url log = (Ok (map VStr ss), log ++ [url])).
Proof.
  intros upstream url log doc l Hu Hl.
  assert (Hs : searchPubMed upstream url log
               = (Ok (flat_map id_text l), log ++ [url])).
  { unfold searchPubMed, try_catch, bind, http_get_xml, lift, ret. rewrite Hu.
    rewrite parse_id_list_guarded by (rewrite Hl; reflexivity).
    rewrite Hl. simpl. now rewrite push_ids_flat_map. }
  split; [exact Hs|]. intros ss ->. now rewrite Hs, id_text_strings.
Qed.

Lemma search_identifiers_in_order_witness :
  searchPubMed (fixed_upstream [VStr "31452104"; element "7" "x" "y"; VBare []]
                  sample_doc)
    "https://eutils.ncbi.nlm.nih.gov/entrez/eutils/esearch.fcgi?db=pubmed&term=asthma&retmax=3&retmode=xml"
    []
  = (Ok [VStr "31452104"; VStr "7"],
     ["https://eutils.ncbi.nlm.nih.gov/entrez/eutils/esearch.fcgi?db=pubmed&term=asthma&retmax=3&retmode=xml"]).
Proof.
  exact (proj1 (search_identifiers_in_order
                  (fixed_upstream [VStr "31452104"; element "7" "x" "y"; VBare []]
                     sample_doc)
                  "https://eutils.ncbi.nlm.nih.gov/entrez/eutils/esearch.fcgi?db=pubmed&term=asthma&retmax=3&retmode=xml"
                  []
                  (esearch_doc [VStr "31452104"; element "7" "x" "y"; VBare []])
                  [VStr "31452104"; element "7" "x" "y"; VBare []]
                  eq_refl eq_refl)).
Defined.

Lemma searchPubMed_failed (upstream : RequestLog -> string -> option JsVal)
      (url : string) (log : RequestLog) :
  upstream log url = None ->
  searchPubMed upstream url log = (Ok [], log ++ [url]).
Proof.
  intros Hu. unfold searchPubMed, try_catch, bind, http_get_xml, lift, ret.
  now rewrite Hu.
Qed.

(** X6. A search that fails is an empty result, never an error: when the
    search request fails, when the answer has no list of identifiers, when
    reading the answer throws, and when the list is not iterable, the
    search step returns the empty list after its one request.  A keyword
    search or an advanced search whose search URL could be built and whose
    search request fails then returns the empty list and fetches nothing. *)
Theorem failed_search_gives_no_results :
  forall (upstream : RequestLog -> string -> option JsVal)
         (url : string) (log : RequestLog),
    (upstream log url = None ->
     searchPubMed upstream url log = (Ok [], log ++ [url]))
    /\ (forall doc,
           upstream log url = Some doc ->
           truthy (doc_id_list doc) = false ->
           searchPubMed upstream url log = (Ok [], log ++ [url]))
    /\ (forall doc e,
           upstream log url = Some doc ->
           parse_id_list doc = Throw e ->
           searchPubMed upstream url log = (Ok [], log ++ [url]))
    /\ (forall doc fs,
           upstream log url = Some doc ->
           doc_id_list doc = VObj fs \/ doc_id_list doc = VBare fs ->
           searchPubMed upstream url log = (Ok [], log ++ [url]))
    /\ (forall kw numResults,
           generatePubMedSearchUrl kw numResults = Ok url ->
           upstream log url = None ->
           searchKeywords upstream kw numResults log = (Ok [], log ++ [url]))
    /\ (forall params q,
           nullish params = false ->
           searchAdvanced_query params = Ok q ->
           q <> "" ->
           generatePubMedSearchUrl (VStr q)
             (or_else (get_field params "num_results") (VNum 10)) = Ok url ->
           upstream log url = None ->
           searchAdvanced upstream params log = (Ok [], log ++ [url])).
Proof.
  intros upstream url log.
  split; [apply searchPubMed_failed|]. split; [|split; [|split; [|split]]].
  - intros doc Hu F.
    unfold searchPubMed, try_catch, bind, http_get_xml, lift, ret. rewrite Hu.
    unfold parse_id_list. fold (doc_id_list doc). now rewrite F.
  - intros doc e Hu He.
    unfold searchPubMed, try_catch, bind, http_get_xml, lift, ret.
    now rewrite Hu, He.
  - intros doc fs Hu Hl.
    unfold searchPubMed, try_catch, bind, http_get_xml, lift, ret. rewrite Hu.
    rewrite parse_id_list_guarded by (destruct Hl as [-> | ->]; reflexivity).
    destruct Hl as [-> | ->]; reflexivity.
  - intros kw numResults Hurl Hu.
    rewrite (searchKeywords_run upstream kw numResults url log [] Hurl
               (searchPubMed_failed _ _ _ Hu) (Forall_nil _)).
    simpl. now rewrite app_nil_r.
  - intros params q Hn Hq Hne Hurl Hu.
    rewrite (searchAdvanced_run upstream params q url log [] Hn Hq Hne Hurl
               (searchPubMed_failed _ _ _ Hu) (Forall_nil _)).
    simpl. now rewrite app_nil_r.
Qed.

Lemma failed_search_gives_no_results_witness :
  searchKeywords failing_upstream (VStr "asthma") (VNum 3) []
  = (Ok [],
     [] ++ ["https://eutils.ncbi.nlm.nih.gov/entrez/eutils/esearch.fcgi?db=pubmed&term=asthma&retmax=3&retmode=xml"]).
Proof.
  exact (proj1 (proj2 (proj2 (proj2 (proj2
           (failed_search_gives_no_results failing_upstream
              "https://eutils.ncbi.nlm.nih.gov/entrez/eutils/esearch.fcgi?db=pubmed&term=asthma&retmax=3&retmode=xml"
              [])))))
           (VStr "asthma") (VNum 3) eq_refl eq_refl).
Defined.

Lemma push_authors_unconvertible (l : list JsVal) (a : JsVal) :
  In a l ->
  nullish a = false ->
  truthy (last_name_of a) = true ->
  convertible (last_name_of a) = false ->
  forall acc, exists e, push_authors l acc = Throw e.
Proof.
  intros Hin Hn Ht Hc. induction l as [|b l IH]; simpl; [contradiction|].
  intros acc. destruct Hin as [-> | Hin].
  - rewrite (author_name_present _ Hn), Ht, (ToString_not_convertible _ Hc).
    simpl. eauto.
  - destruct (author_name b) as [[name|]|e]; simpl; eauto.
Qed.

(** X7. The fetch of an identifier that converts to a string never throws
    and always issues its one request.  It gives no record when the
    request fails, when the answer has no article or the article no
    citation, and whenever the extraction throws: one author whose last
    name cannot be converted to a string loses the whole record, not only
    that author.  The fetch of an identifier that does not convert throws
    before any request, out of the handler of its [catch] block. *)
Theorem fetch_failures_give_null :
  forall (upstream : RequestLog -> string -> option JsVal)
         (p : JsVal) (log : RequestLog),
    (convertible p = true ->
     (exists result,
         getPubMedMetadata upstream p log
         = (Ok result, log ++ [efetch_url (render p)]))
     /\ (upstream log (efetch_url (render p)) = None ->
         getPubMedMetadata upstream p log
         = (Ok None, log ++ [efetch_url (render p)]))
     /\ (forall doc,
            upstream log (efetch_url (render p)) = Some doc ->
            truthy (doc_article doc) = false
            \/ truthy (doc_citation doc) = false ->
            getPubMedMetadata upstream p log
            = (Ok None, log ++ [efetch_url (render p)]))
     /\ (forall doc e,
            upstream log (efetch_url (render p)) = Some doc ->
            extract_record p doc = Throw e ->
            getPubMedMetadata upstream p log
            = (Ok None, log ++ [efetch_url (render p)]))
     /\ (forall authorList pubDate articleIds a,
            upstream log (efetch_url (render p))
            = Some (article_doc authorList pubDate articleIds) ->
            In a authorList ->
            nullish a = false ->
            truthy (last_name_of a) = true ->
            convertible (last_name_of a) = false ->
            getPubMedMetadata upstream p log
            = (Ok None, log ++ [efetch_url (render p)])))
    /\ (convertible p = false ->
        getPubMedMetadata upstream p log = (Throw (Foreign NotPrimitive), log)).
Proof.
  intros upstream p log. split; [|apply getPubMedMetadata_throws].
  intros Hc. rewrite (getPubMedMetadata_run upstream _ _ Hc).
  unfold fetched, fetch_url.
  split; [eauto|]. split; [|split; [|split]].
  - intros Hu. now rewrite Hu.
  - intros doc Hu F. rewrite Hu.
    unfold extract_record. fold (doc_article doc).
    destruct (truthy (doc_article doc)) eqn:Ta; [|reflexivity].
    destruct F as [F|F]; [discriminate F|].
    cbv zeta. simpl negb. cbv iota.
    rewrite !(prop_truthy _ _ Ta). simpl bindR. fold (doc_citation doc).
    now rewrite F.
  - intros doc e Hu He. now rewrite Hu, He.
  - intros authorList pubDate articleIds a Hu Hin Hn Ht Hcl. rewrite Hu.
    destruct (push_authors_unconvertible _ _ Hin Hn Ht Hcl []) as [e He].
    unfold extract_record, article_doc. simpl.
    unfold extract_authors. simpl. rewrite He. reflexivity.
Qed.

Lemma fetch_failures_give_null_witness :
  getPubMedMetadata
    (fixed_upstream []
       (article_doc
          [author_full;
           VBare [("LastName", VArr [VBare [("toString", VArr [VStr "x"])]])]]
          pubdate_full ids_doi_pmc))
    (VStr "31452104") []
  = (Ok None, [] ++ [efetch_url (render (VStr "31452104"))])
  /\ getPubMedMetadata (fixed_upstream [] sample_doc)
       (VObj [("toString", VNum 1)]) []
     = (Throw (Foreign NotPrimitive), []).
Proof.
  split.
  - refine (proj2 (proj2 (proj2 (proj2 (proj1
              (fetch_failures_give_null
                 (fixed_upstream []
                    (article_doc
                       [author_full;
                        VBare [("LastName",
                                VArr [VBare [("toString", VArr [VStr "x"])]])]]
                       pubdate_full ids_doi_pmc))
                 (VStr "31452104") []) eq_refl))))
              [author_full;
               VBare [("LastName", VArr [VBare [("toString", VArr [VStr "x"])]])]]
              pubdate_full ids_doi_pmc
              (VBare [("LastName", VArr [VBare [("toString", VArr [VStr "x"])]])])
              eq_refl (or_intror (or_introl eq_refl)) eq_refl eq_refl eq_refl).
  - exact (proj2 (fetch_failures_give_null (fixed_upstream [] sample_doc)
                    (VObj [("toString", VNum 1)]) []) eq_refl).
Defined.

(** * Further properties of the Dispatcher *)

(** ** What the Gateway can throw *)

Lemma conversion_only_Ok {A} (a : A) : throws_conversion_only (Ok a).
Proof. intros e H. discriminate H. Qed.

Lemma conversion_only_ToString (v : JsVal) : throws_conversion_only (ToString v).
Proof. intros e H. exact (proj2 (ToString_Throw _ _ H)). Qed.

Lemma conversion_only_bind {A B} (c : Result A) (k : A -> Result B) :
  throws_conversion_only c ->
  (forall a, throws_conversion_only (k a)) ->
  throws_conversion_only (bindR c k).
Proof.
  intros Hc Hk e H. destruct c as [a|e']; simpl in H.
  - exact (Hk a e H).
  - inversion H; subst. now apply Hc.
Qed.

Lemma conversion_only_if {A} (b : bool) (x y : Result A) :
  throws_conversion_only x -> throws_conversion_only y ->
  throws_conversion_only (if b then x else y).
Proof. destruct b; auto. Qed.

Lemma conversion_only_join (sep : string) (l : list JsVal) :
  throws_conversion_only (Array_join sep l).
Proof.
  intros e H. unfold Array_join in H.
  destruct (forallb _ l); [discriminate H | now inversion H].
Qed.

Lemma conversion_only_query (params : JsVal) :
  throws_conversion_only (searchAdvanced_query params).
Proof.
  unfold searchAdvanced_query, searchAdvanced_terms, tagged_term.
  repeat first
    [ apply conversion_only_join
    | apply conversion_only_Ok
    | apply conversion_only_ToString
    | apply conversion_only_if
    | apply conversion_only_bind; [|intros ?] ].
Qed.





Section Outcomes.

Variable upstream : RequestLog -> string -> option JsVal.


Lemma searchKeywords_Throw (kw numResults : JsVal) (e : Exn)
      (log log' : RequestLog) :
  searchKeywords upstream kw numResults log = (Throw e, log') ->
  e = Foreign NotPrimitive.
Proof.
  intros H.
  destruct (generatePubMedSearchUrl kw numResults) as [url|e'] eqn:Hu.
  - destruct (searchPubMed_returns upstream url log) as [ids Hs].
    rewrite (searchKeywords_unfold upstream _ _ _ _ _ Hu Hs) in H.
    destruct (fetch_each_outcome upstream ids [] (log ++ [url]))
      as (out & rest & Hf & He).
    rewrite Hf in H. inversion H; subst. now apply He.
  - rewrite (searchKeywords_throws upstream _ _ _ _ Hu) in H. now inversion H.
Qed.

Lemma searchAdvanced_Throw (params : JsVal) (e : Exn) (log log' : RequestLog) :
  searchAdvanced upstream params log = (Throw e, log') ->
  e = Error "At least one search parameter is required"
  \/ exists f, e = Foreign f.
Proof.
  intros H. unfold searchAdvanced in H.
  destruct (nullish params) eqn:Hn; [inversion H; eauto|].
  unfold bind, lift in H.
  destruct (searchAdvanced_query params) as [q|e'] eqn:Hq.
  - destruct (String.eqb q "") eqn:Eq; [inversion H; now left|].
    unfold console_print, ret in H.
    destruct (generatePubMedSearchUrl (VStr q)
                (or_else (get_field params "num_results") (VNum 10)))
      as [url|e'] eqn:Hu.
    + destruct (searchPubMed_returns upstream url log) as [ids Hs].
      rewrite Hs in H.
      destruct (fetch_each_outcome upstream ids [] (log ++ [url]))
        as (out & rest & Hf & He).
      rewrite Hf in H. inversion H; subst. right. eexists. now apply He.
    + inversion H; subst. right. eexists.
      exact (generatePubMedSearchUrl_Throw _ _ _ Hu).
  - inversion H; subst. right. eexists.
    exact (conversion_only_query _ _ Hq).
Qed.

Lemma getArticleMetadata_Throw (p : JsVal) (e : Exn) (log log' : RequestLog) :
  getArticleMetadata upstream p log = (Throw e, log') -> e = Foreign NotPrimitive.
Proof.
  intros H. destruct (convertible (pmid_string p)) eqn:Hc.
  - rewrite (getArticleMetadata_run upstream _ _ Hc) in H. discriminate H.
  - rewrite (getArticleMetadata_throws upstream _ _ Hc) in H. now inversion H.
Qed.

Lemma downloadFullTextPdf_Throw (p : JsVal) (e : Exn) (log log' : RequestLog) :
  downloadFullTextPdf upstream p log = (Throw e, log') -> e = Foreign NotPrimitive.
Proof.
  intros H. destruct (convertible (pmid_string p)) eqn:Hc.
  - rewrite (downloadFullTextPdf_run upstream _ _ Hc) in H.
    destruct (truthy _) in H; [|discriminate H].
    match type of H with
    | context [ToString ?v] =>
        destruct (ToString_cases v) as [E|E]; rewrite E in H
    end; [discriminate H | now inversion H].
  - rewrite (downloadFullTextPdf_throws upstream _ _ Hc) in H. now inversion H.
Qed.

End Outcomes.







(** X11. The methods the tool schema lists are exactly the ones the
    Dispatcher routes: a [method] string outside the schema's [enum] is
    answered with the error [Unknown method: ...] before any request, and
    a [method] of the [enum] never is. *)
Theorem schema_methods_are_routed :
  forall (upstream : RequestLog -> string -> option JsVal)
         (JSON_stringify : JsVal -> string)
         (foreign_message : Fault -> string)
         (args : JsVal) (log : RequestLog) (m : string),
    get_field args "method" = VStr m ->
    (~ In m schema_method_enum ->
     CallTool upstream JSON_stringify foreign_message "pubmed_articles" args log
     = (Ok (error_envelope JSON_stringify ("Unknown method: " ++ m)), log))
    /\ (In m schema_method_enum ->
        forall log',
          dispatch upstream JSON_stringify args log
          <> (Throw (Error ("Unknown method: " ++ m)), log')).
Proof.
  intros upstream JSON_stringify foreign_message args log m Hm.
  destruct (method_is_object _ _ Hm) as (Hn & _ & _).
  split.
  - intros Hnot. rewrite CallTool_outcome.
    rewrite dispatch_unknown_method; rewrite ?Hm; try exact Hn;
      try reflexivity;
      apply strict_eq_str_other; intros ->; apply Hnot; simpl; tauto.
  - intros Hin log'. simpl in Hin.
    destruct Hin as [<- | [<- | [<- | [<- | []]]]].
    + rewrite dispatch_search_keywords by exact Hm.
      destruct (truthy (get_field args "keywords")); cbn [negb]; cbv iota beta.
      * unfold bind.
        destruct (searchKeywords upstream (get_field args "keywords")
                    (default_to (VNum 10) (get_field args "num_results")) log)
          as [[articles|e] l] eqn:E; [discriminate|].
        rewrite (searchKeywords_Throw upstream _ _ _ _ _ E). discriminate.
      * unfold throw. intros H. inversion H.
    + rewrite dispatch_search_advanced by exact Hm. unfold bind.
      destruct (searchAdvanced upstream args log) as [[articles|e] l] eqn:E;
        [discriminate|].
      destruct (searchAdvanced_Throw upstream _ _ _ _ E) as [-> | [f ->]];
        intros H; inversion H.
    + rewrite dispatch_get_article_metadata by exact Hm.
      destruct (truthy (get_field args "pmid")); cbn [negb]; cbv iota beta.
      * unfold bind.
        destruct (getArticleMetadata upstream (get_field args "pmid") log)
          as [[result|e] l] eqn:E; [discriminate|].
        rewrite (getArticleMetadata_Throw upstream _ _ _ _ E). discriminate.
      * unfold throw. intros H. inversion H.
    + rewrite dispatch_get_article_pdf by exact Hm.
      destruct (truthy (get_field args "pmid")); cbn [negb]; cbv iota beta.
      * unfold bind.
        destruct (downloadFullTextPdf upstream (get_field args "pmid") log)
          as [[result|e] l] eqn:E; [discriminate|].
        rewrite (downloadFullTextPdf_Throw upstream _ _ _ _ E). discriminate.
      * unfold throw. intros H. inversion H.
Qed.

Lemma schema_methods_are_routed_witness :
  CallTool failing_upstream sample_stringify sample_wording "pubmed_articles"
    (VObj [("method", VStr "SEARCH_KEYWORDS"); ("keywords", VStr "asthma")]) []
  = (Ok (error_envelope sample_stringify "Unknown method: SEARCH_KEYWORDS"), []).
Proof.
  refine (proj1 (schema_methods_are_routed failing_upstream sample_stringify
                   sample_wording
                   (VObj [("method", VStr "SEARCH_KEYWORDS");
                          ("keywords", VStr "asthma")]) []
                   "SEARCH_KEYWORDS" eq_refl) _).
  simpl. intros [H | [H | [H | [H | []]]]]; discriminate H.
Defined.

Lemma dispatch_ext (upstream : RequestLog -> string -> option JsVal)
      (JSON_stringify : JsVal -> string)
      (args1 args2 : JsVal) (log : RequestLog) :
  nullish args1 = false -> nullish args2 = false ->
  (forall k, In k schema_properties -> get_field args1 k = get_field args2 k) ->
  dispatch upstream JSON_stringify args1 log
  = dispatch upstream JSON_stringify args2 log.
Proof.
  intros N1 N2 H.
  assert (Em := H "method" ltac:(simpl; tauto)).
  assert (Ek := H "keywords" ltac:(simpl; tauto)).
  assert (En := H "num_results" ltac:(simpl; tauto)).
  assert (Ep := H "pmid" ltac:(simpl; tauto)).
  destruct (strict_eq_str (get_field args1 "method") "search_keywords") eqn:S1.
  { apply strict_eq_str_true in S1.
    rewrite !dispatch_search_keywords by (rewrite <- ?Em; exact S1).
    now rewrite Ek, En. }
  destruct (strict_eq_str (get_field args1 "method") "search_advanced") eqn:S2.
  { apply strict_eq_str_true in S2.
    rewrite !dispatch_search_advanced by (rewrite <- ?Em; exact S2).
    unfold bind.
    rewrite (searchAdvanced_ext upstream args1 args2 log N1 N2);
      try reflexivity;
      try (apply H; simpl; tauto).
    now rewrite En. }
  destruct (strict_eq_str (get_field args1 "method") "get_article_metadata") eqn:S3.
  { apply strict_eq_str_true in S3.
    rewrite !dispatch_get_article_metadata by (rewrite <- ?Em; exact S3).
    now rewrite Ep. }
  destruct (strict_eq_str (get_field args1 "method") "get_article_pdf") eqn:S4.
  { apply strict_eq_str_true in S4.
    rewrite !dispatch_get_article_pdf by (rewrite <- ?Em; exact S4).
    now rewrite Ep. }
  rewrite !dispatch_unknown_method; rewrite <- ?Em; try assumption.
  reflexivity.
Qed.

(** X12. The handler reads its argument object only through the ten
    properties of the tool schema: two argument objects that agree on
    these properties get the same response and cause the same requests,
    whatever else they contain.  Undeclared properties are not rejected,
    they are ignored. *)
Theorem only_schema_properties_matter :
  forall (upstream : RequestLog -> string -> option JsVal)
         (JSON_stringify : JsVal -> string)
         (foreign_message : Fault -> string)
         (name : string) (args1 args2 : JsVal) (log : RequestLog),
    nullish args1 = false ->
    nullish args2 = false ->
    (forall k, In k schema_properties -> get_field args1 k = get_field args2 k) ->
    CallTool upstream JSON_stringify foreign_message name args1 log
    = CallTool upstream JSON_stringify foreign_message name args2 log.
Proof.
  intros upstream JSON_stringify foreign_message name args1 args2 log N1 N2 H.
  unfold CallTool. destruct (negb (String.eqb name "pubmed_articles"));
    [reflexivity|].
  unfold try_catch.
  now rewrite (dispatch_ext upstream JSON_stringify args1 args2 log N1 N2 H).
Qed.

Lemma only_schema_properties_matter_witness :
  CallTool (fixed_upstream [] sample_doc) sample_stringify sample_wording
    "pubmed_articles"
    (VObj [("method", VStr "get_article_pdf"); ("pmid", VStr "31452104")]) []
  = CallTool (fixed_upstream [] sample_doc) sample_stringify sample_wording
      "pubmed_articles"
      (VObj [("api_key", VStr "k"); ("pmid", VStr "31452104");
             ("method", VStr "get_article_pdf"); ("retmode", VStr "json")]) [].
Proof.
  refine (only_schema_properties_matter (fixed_upstream [] sample_doc)
            sample_stringify sample_wording "pubmed_articles"
            (VObj [("method", VStr "get_article_pdf"); ("pmid", VStr "31452104")])
            (VObj [("api_key", VStr "k"); ("pmid", VStr "31452104");
                   ("method", VStr "get_article_pdf"); ("retmode", VStr "json")])
            [] eq_refl eq_refl _).
  intros k Hk. simpl in Hk.
  repeat (destruct Hk as [<- | Hk]; [reflexivity|]). contradiction.
Defined.

(** X13. The handler throws exactly when the tool name is not
    [pubmed_articles]; it then throws [Unknown tool: name] without reading
    the arguments and without any request. *)
Theorem handler_throws_only_for_unknown_tool :
  forall (upstream : RequestLog -> string -> option JsVal)
         (JSON_stringify : JsVal -> string)
         (foreign_message : Fault -> string)
         (name : string) (args : JsVal) (log : RequestLog),
    ((exists e log',
         CallTool upstream JSON_stringify foreign_message name args log
         = (Throw e, log'))
     <-> name <> "pubmed_articles")
    /\ (name <> "pubmed_articles" ->
        CallTool upstream JSON_stringify foreign_message name args log
        = (Throw (Error ("Unknown tool: " ++ name)), log)).
Proof.
  intros upstream JSON_stringify foreign_message name args log.
  assert (Hother : name <> "pubmed_articles" ->
                   CallTool upstream JSON_stringify foreign_message name args log
                   = (Throw (Error ("Unknown tool: " ++ name)), log)).
  { intros Hne. unfold CallTool. apply String.eqb_neq in Hne. now rewrite Hne. }
  split; [split|exact Hother].
  - intros (e & log' & H) ->. rewrite CallTool_outcome in H.
    destruct (dispatch upstream JSON_stringify args log) as [[resp|e'] l];
      discriminate H.
  - intros Hne. rewrite (Hother Hne). eauto.
Qed.

Lemma handler_throws_only_for_unknown_tool_witness :
  CallTool failing_upstream sample_stringify sample_wording "pubmed_search"
    VNull []
  = (Throw (Error ("Unknown tool: " ++ "pubmed_search")), []).
Proof.
  refine (proj2 (handler_throws_only_for_unknown_tool failing_upstream
                   sample_stringify sample_wording "pubmed_search" VNull []) _).
  discriminate.
Defined.
